(** * function-runtime-oci: the spark launcher and the container runner

    A shallow embedding of the Go sources of the repository:

    - [cmd/xfn-oci/spark] and [cmd/function-runtime-oci/spark]: the two
      generations of [Command.Run], which create an OCI runtime bundle,
      run the external OCI runtime against it and clean the bundle up;
    - [limitReaderIfNonZero], [FromRunFunctionConfig], [FromResourcesConfig];
    - [internal/container]: [Runner], its options and [ConfigFromRequest];
    - the [start] and [run] commands, as far as they build a [Runner].

    Calls that leave the repository (the Go standard library, protobuf,
    go-containerregistry, the bundle stores) are answered by a [World]: a
    record holding the outcome of every such call.  A run is a function of
    its command line and of the world, and yields a completion together with
    the trace of the effects it performed. *)

From Stdlib Require Import ZArith List String Bool Lia.
From Stdlib Require Import Init.Byte.
Import ListNotations.

Local Open Scope string_scope.
Local Open Scope Z_scope.
Local Open Scope list_scope.

(** ** Go values *)

(** [[]byte]. *)
Definition bytes := list byte.

(** Go's [error] values, as far as the sources build or inspect them:
    [errors.New], [errors.Wrap] of crossplane-runtime's errors package, and
    [*exec.ExitError] with the exit status and its [Stderr] field.  The exit
    status of a process killed by a signal is [-1]. *)
Inductive error : Type :=
| errors_New (msg : string)
| exec_ExitError (code : Z) (Stderr : bytes)
| Wrapped (err : error) (msg : string).

(** A Go [error] result: [None] is [nil]. *)
Definition err_result := option error.

(** [errors.Wrap(err, msg)]: [nil] when [err] is [nil]. *)
Definition errors_Wrap (err : err_result) (msg : string) : err_result :=
  match err with
  | None => None
  | Some e => Some (Wrapped e msg)
  end.

(** [errors.As(err, &exitErr)] for a [*exec.ExitError] target: the first
    exit error in the chain of wrapped errors. *)
Fixpoint errors_As_ExitError (err : error) : option (Z * bytes) :=
  match err with
  | errors_New _ => None
  | exec_ExitError code stderr => Some (code, stderr)
  | Wrapped e _ => errors_As_ExitError e
  end.

(** A two-valued Go result [(v, err)]: the value is meaningful when the
    error is [nil]. *)
Inductive result (A : Type) : Type :=
| Ok (v : A)
| Err (err : error).
Arguments Ok {A} v.
Arguments Err {A} err.

(** ** io: readers *)

(** How a stream ends once its data is consumed: with [io.EOF], with an
    error, or never (a pipe whose writer stays alive: the read blocks). *)
Inductive Ending : Type :=
| EOF
| Fault (err : error)
| Stalls.

(** An [io.Reader], by what reading it to the end yields. *)
Record Reader : Type := mkReader {
  data : bytes;
  ending : Ending
}.

(** [io.LimitReader(r, n)]: reads from [r] but stops with EOF after [n]
    bytes; with [n <= 0] it is at EOF at once.  When [r] holds fewer than
    [n] bytes its own ending shows through. *)
Definition io_LimitReader (r : Reader) (n : Z) : Reader :=
  if n <=? 0 then mkReader [] EOF
  else if n <=? Z.of_nat (List.length (data r))
       then mkReader (firstn (Z.to_nat n) (data r)) EOF
       else r.

(** [io.ReadAll(r)]: the bytes read and the error ([nil] at EOF); [None]
    when the call never returns. *)
Definition io_ReadAll (r : Reader) : option (bytes * err_result) :=
  match ending r with
  | EOF => Some (data r, None)
  | Fault e => Some (data r, Some e)
  | Stalls => None
  end.

(** [limitReaderIfNonZero] of both spark packages. *)
Definition limitReaderIfNonZero (r : Reader) (limit : Z) : Reader :=
  if limit =? 0 then r
  else io_LimitReader r limit.

(** ** Protocol messages

    The generated protobuf packages are not among the sources; the messages
    are declared here with the fields the sources read, every message-typed
    field being a pointer ([None] is [nil]) read through the nil-safe
    getters. *)

(** [structpb.Struct], kept opaque: only its JSON form is ever used. *)
Record Struct : Type := mkStruct { struct_fields : bytes }.

(** [RunFunctionRequest]: [Input] and the rest of the message. *)
Record RunFunctionRequest : Type := mkRunFunctionRequest {
  Input : option Struct;
  Payload : bytes
}.

(** [req.GetInput()], which is [nil] on a [nil] request. *)
Definition GetInput (req : option RunFunctionRequest) : option Struct :=
  match req with
  | None => None
  | Some r => Input r
  end.

Inductive NetworkPolicy_pb : Type :=
| NETWORK_POLICY_UNSPECIFIED
| NETWORK_POLICY_ISOLATED
| NETWORK_POLICY_RUNNER.

Definition NetworkPolicy_pb_eqb (a b : NetworkPolicy_pb) : bool :=
  match a, b with
  | NETWORK_POLICY_UNSPECIFIED, NETWORK_POLICY_UNSPECIFIED => true
  | NETWORK_POLICY_ISOLATED, NETWORK_POLICY_ISOLATED => true
  | NETWORK_POLICY_RUNNER, NETWORK_POLICY_RUNNER => true
  | _, _ => false
  end.

Inductive ImagePullPolicy_pb : Type :=
| IMAGE_PULL_POLICY_UNSPECIFIED
| IMAGE_PULL_POLICY_IF_NOT_PRESENT
| IMAGE_PULL_POLICY_ALWAYS
| IMAGE_PULL_POLICY_NEVER.

Record ImagePullAuth : Type := mkImagePullAuth {
  Username : string;
  Password : string;
  Auth : string;
  IdentityToken : string;
  RegistryToken : string
}.

Record ImagePullConfig : Type := mkImagePullConfig {
  PullPolicy : ImagePullPolicy_pb;
  PullAuth : option ImagePullAuth
}.

Record ResourceLimits : Type := mkResourceLimits {
  Cpu : string;
  Memory : string
}.

Record ResourceConfig : Type := mkResourceConfig {
  Limits : option ResourceLimits
}.

Record NetworkConfig : Type := mkNetworkConfig {
  Policy : NetworkPolicy_pb
}.

(** [Timeout] is a [durationpb.Duration]; it is held as the
    [time.Duration] (nanoseconds) that its [AsDuration()] yields. *)
Record RunFunctionConfig : Type := mkRunFunctionConfig {
  Resources : option ResourceConfig;
  Network : option NetworkConfig;
  Timeout : option Z
}.

Record RunFunctionRequestConfigSpec : Type := mkRunFunctionRequestConfigSpec {
  Image : string;
  ImagePullConfig_ : option ImagePullConfig;
  RunFunctionConfig_ : option RunFunctionConfig
}.

(** The nil-safe getters. *)
Definition GetResources (cfg : option RunFunctionConfig) : option ResourceConfig :=
  match cfg with None => None | Some c => Resources c end.

Definition GetLimits (r : option ResourceConfig) : option ResourceLimits :=
  match r with None => None | Some c => Limits c end.

Definition GetCpu (l : option ResourceLimits) : string :=
  match l with None => "" | Some c => Cpu c end.

Definition GetMemory (l : option ResourceLimits) : string :=
  match l with None => "" | Some c => Memory c end.

Definition GetNetwork (cfg : option RunFunctionConfig) : option NetworkConfig :=
  match cfg with None => None | Some c => Network c end.

Definition GetPolicy (n : option NetworkConfig) : NetworkPolicy_pb :=
  match n with None => NETWORK_POLICY_UNSPECIFIED | Some c => Policy c end.

Definition GetTimeout (cfg : option RunFunctionConfig) : option Z :=
  match cfg with None => None | Some c => Timeout c end.

(** [AsDuration()] of a [durationpb.Duration] pointer: zero on [nil]. *)
Definition AsDuration (d : option Z) : Z :=
  match d with None => 0 | Some t => t end.

Definition GetImage (s : RunFunctionRequestConfigSpec) : string := Image s.

Definition GetImagePullConfig (s : RunFunctionRequestConfigSpec) : option ImagePullConfig :=
  ImagePullConfig_ s.

Definition GetRunFunctionConfig (s : RunFunctionRequestConfigSpec) : option RunFunctionConfig :=
  RunFunctionConfig_ s.

(** ** internal/container, the xfn-oci generation *)

Module Container.

Definition errUnmarshalConfig := "cannot unmarshal input to RunFunctionRequestConfig".
Definition errMarshalRequestInput := "cannot marshal Input to JSON".

Definition defaultCacheDir := "/xfn".

(** [metav1.TypeMeta]. *)
Record TypeMeta : Type := mkTypeMeta {
  Kind : string;
  APIVersion : string
}.

Record RunFunctionRequestConfig : Type := mkRunFunctionRequestConfig {
  TypeMeta_ : TypeMeta;
  Spec : RunFunctionRequestConfigSpec
}.

(** The zero value of [RunFunctionRequestConfig], as [var cfg] declares it. *)
Definition zero_RunFunctionRequestConfig : RunFunctionRequestConfig :=
  mkRunFunctionRequestConfig (mkTypeMeta "" "")
    (mkRunFunctionRequestConfigSpec "" None None).

(** [Runner], without its logger and its embedded gRPC server. *)
Record Runner : Type := mkRunner {
  rootUID : Z;
  rootGID : Z;
  setuid : bool;
  cache : string;
  registry : string;
  defaultImage : option string
}.

Definition RunnerOption := Runner -> Runner.

Definition MapToRoot (uid gid : Z) : RunnerOption :=
  fun r => mkRunner uid gid (setuid r) (cache r) (registry r) (defaultImage r).

Definition SetUID (s : bool) : RunnerOption :=
  fun r => mkRunner (rootUID r) (rootGID r) s (cache r) (registry r) (defaultImage r).

Definition WithDefaultImage (image : string) : RunnerOption :=
  fun r =>
    if String.eqb image "" then r
    else mkRunner (rootUID r) (rootGID r) (setuid r) (cache r) (registry r) (Some image).

Definition WithCacheDir (d : string) : RunnerOption :=
  fun r => mkRunner (rootUID r) (rootGID r) (setuid r) d (registry r) (defaultImage r).

Definition WithRegistry (dr : string) : RunnerOption :=
  fun r => mkRunner (rootUID r) (rootGID r) (setuid r) (cache r) dr (defaultImage r).

(** [WithLogger] sets the logger, which [Runner] above leaves out. *)
Definition WithLogger : RunnerOption := fun cr => cr.

Definition NewContainerRunner (o : list RunnerOption) : Runner :=
  fold_left (fun r fn => fn r) o (mkRunner 0 0 false defaultCacheDir "" None).

Section ConfigFromRequest.

(** [MarshalJSON] of [structpb.Struct] and [json.Unmarshal] into a
    [RunFunctionRequestConfig]. *)
Variable MarshalJSON : Struct -> result bytes.
Variable json_Unmarshal : bytes -> result RunFunctionRequestConfig.

(** The result is the pair of the config pointer and the error. *)
Definition ConfigFromRequest (req : option RunFunctionRequest)
  : option RunFunctionRequestConfig * err_result :=
  let cfg := zero_RunFunctionRequestConfig in
  let input := GetInput req in
  match input with
  | None => (Some cfg, None)
  | Some input =>
      match MarshalJSON input with
      | Err err => (None, errors_Wrap (Some err) errMarshalRequestInput)
      | Ok inputJSON =>
          match json_Unmarshal inputJSON with
          | Err err => (None, errors_Wrap (Some err) errUnmarshalConfig)
          | Ok cfg => (Some cfg, None)
          end
      end
  end.

End ConfigFromRequest.

End Container.

(** ** internal/container, the function-runtime-oci generation *)

Module ContainerOCI.

Definition defaultCacheDir := "/function-runtime-oci".

Record Runner : Type := mkRunner {
  rootUID : Z;
  rootGID : Z;
  setuid : bool;
  cache : string;
  registry : string
}.

Definition RunnerOption := Runner -> Runner.

Definition MapToRoot (uid gid : Z) : RunnerOption :=
  fun r => mkRunner uid gid (setuid r) (cache r) (registry r).

Definition SetUID (s : bool) : RunnerOption :=
  fun r => mkRunner (rootUID r) (rootGID r) s (cache r) (registry r).

Definition WithCacheDir (d : string) : RunnerOption :=
  fun r => mkRunner (rootUID r) (rootGID r) (setuid r) d (registry r).

Definition WithRegistry (dr : string) : RunnerOption :=
  fun r => mkRunner (rootUID r) (rootGID r) (setuid r) (cache r) dr.

Definition WithLogger : RunnerOption := fun cr => cr.

Definition NewRunner (o : list RunnerOption) : Runner :=
  fold_left (fun r fn => fn r) o (mkRunner 0 0 false defaultCacheDir "").

End ContainerOCI.

(** ** The host process, as the start and run commands probe it *)

(** [os.Getuid], [os.Getgid] and the capability probes of the container
    package ([HasCapSetUID], [HasCapSetGID]). *)
Record Host : Type := mkHost {
  os_Getuid : Z;
  os_Getgid : Z;
  HasCapSetUID : bool;
  HasCapSetGID : bool
}.

(** ** cmd/xfn-oci/start and cmd/xfn-oci/run: building the runner *)

Module XfnStart.

Record Command : Type := mkCommand {
  CacheDir : string;
  MapRootUID : Z;
  MapRootGID : Z;
  Network_ : string;
  Address : string
}.

Section Run.
Variable filepath_Clean : string -> string.

(** [Command.Run] up to the construction of the runner. *)
Definition Run_runner (c : Command) (h : Host) (registry defaultImage : string)
  : Container.Runner :=
  let rootUID := os_Getuid h in
  let rootGID := os_Getgid h in
  let setuid := HasCapSetUID h && HasCapSetGID h in
  let rootUID := if setuid then MapRootUID c else rootUID in
  let rootGID := if setuid then MapRootGID c else rootGID in
  Container.NewContainerRunner
    [ Container.SetUID setuid;
      Container.MapToRoot rootUID rootGID;
      Container.WithCacheDir (filepath_Clean (CacheDir c));
      Container.WithLogger;
      Container.WithRegistry registry;
      Container.WithDefaultImage defaultImage ].
End Run.

End XfnStart.

Module XfnRun.

Record Command : Type := mkCommand {
  CacheDir : string;
  Timeout_ : Z;
  ImagePullPolicy : string;
  NetworkPolicy : string;
  MapRootUID : Z;
  MapRootGID : Z;
  Input_ : bytes
}.

Section Run.
Variable filepath_Clean : string -> string.

(** The runner that [Command.Run] builds; the request decoding that the
    source performs in between does not reach it. *)
Definition Run_runner (c : Command) (h : Host) (registry : string)
  : Container.Runner :=
  let rootUID := os_Getuid h in
  let rootGID := os_Getgid h in
  let setuid := HasCapSetUID h && HasCapSetGID h in
  let rootUID := if setuid then MapRootUID c else rootUID in
  let rootGID := if setuid then MapRootGID c else rootGID in
  Container.NewContainerRunner
    [ Container.SetUID setuid;
      Container.MapToRoot rootUID rootGID;
      Container.WithCacheDir (filepath_Clean (CacheDir c));
      Container.WithRegistry registry ].
End Run.

End XfnRun.

(** ** cmd/function-runtime-oci/start and run: building the runner *)

Module OCIStart.

Record Command : Type := mkCommand {
  CacheDir : string;
  MapRootUID : Z;
  MapRootGID : Z;
  Network_ : string;
  Address : string
}.

Section Run.
(** [container.WithImageTarBall] is not among the sources. *)
Variable WithImageTarBall : string -> ContainerOCI.RunnerOption.

(** The runner that [Command.Run] of the start command builds once the
    tarball has been decompressed to [dst]. *)
Definition Run_runner (c : Command) (h : Host) (dst : string)
  : ContainerOCI.Runner :=
  let rootUID := os_Getuid h in
  let rootGID := os_Getgid h in
  let setuid := HasCapSetUID h && HasCapSetGID h in
  let rootUID := if setuid then MapRootUID c else rootUID in
  let rootGID := if setuid then MapRootGID c else rootGID in
  ContainerOCI.NewRunner
    [ ContainerOCI.SetUID setuid;
      ContainerOCI.MapToRoot rootUID rootGID;
      ContainerOCI.WithLogger;
      WithImageTarBall dst ].
End Run.

End OCIStart.

Module OCIRun.

Record Command : Type := mkCommand {
  MapRootUID : Z;
  MapRootGID : Z;
  ImageTarBall : string;
  RunFunctionRequest_ : bytes
}.

Section Run.
Variable WithImageTarBall : string -> ContainerOCI.RunnerOption.

(** The runner that [Command.Run] of the run command builds. *)
Definition Run_runner (c : Command) (h : Host) (imageTarBall : string)
  : ContainerOCI.Runner :=
  let rootUID := os_Getuid h in
  let rootGID := os_Getgid h in
  let setuid := HasCapSetUID h && HasCapSetGID h in
  let rootUID := if setuid then MapRootUID c else rootUID in
  let rootGID := if setuid then MapRootGID c else rootGID in
  ContainerOCI.NewRunner
    [ ContainerOCI.SetUID setuid;
      ContainerOCI.MapToRoot rootUID rootGID;
      ContainerOCI.WithLogger;
      WithImageTarBall imageTarBall ].
End Run.

End OCIRun.

(** ** internal/oci/spec: the runtime spec and its options *)

Module OCISpec.

(** [runtime.LinuxNamespaceType]. *)
Inductive LinuxNamespaceType : Type :=
| PIDNamespace
| NetworkNamespace
| MountNamespace
| IPCNamespace
| UTSNamespace
| UserNamespace
| CgroupNamespace.

Definition is_NetworkNamespace (t : LinuxNamespaceType) : bool :=
  match t with NetworkNamespace => true | _ => false end.

(** [runtime.Spec], with the parts the options act on: the Linux
    namespaces, the CPU quota and the memory ceiling. *)
Record Spec : Type := mkSpec {
  Namespaces : list LinuxNamespaceType;
  CPUQuota : option Z;
  MemoryLimit : option Z
}.

(** [spec.Option], a function from a spec pointer to an error: it updates
    the spec in place and reports an error; the spec after the call comes
    first. *)
Definition Option := Spec -> Spec * err_result.

Section Mutators.

(** Parsing of Kubernetes-style quantities ([resource.ParseQuantity]
    and the conversion to a quota or to bytes). *)
Variable parseCPU : string -> result Z.
Variable parseMemory : string -> result Z.

(** Modelled from the spec: the package internal/oci/spec is not among
    the sources.  [WithCPULimit(quantity)] parses a CPU quantity into
    the runtime's quota; malformed input fails with a limit-parsing
    error. *)
Definition WithCPULimit (limit : string) : Option :=
  fun s =>
    match parseCPU limit with
    | Err err => (s, Some err)
    | Ok q => (mkSpec (Namespaces s) (Some q) (MemoryLimit s), None)
    end.

(** Modelled from the spec: the package internal/oci/spec is not among
    the sources.  [WithMemoryLimit(quantity)] parses a byte quantity
    into an absolute byte ceiling. *)
Definition WithMemoryLimit (limit : string) : Option :=
  fun s =>
    match parseMemory limit with
    | Err err => (s, Some err)
    | Ok b => (mkSpec (Namespaces s) (CPUQuota s) (Some b), None)
    end.

(** Modelled from the spec: the package internal/oci/spec is not among
    the sources.  [WithHostNetwork()] omits network namespace
    isolation, sharing the launcher's network. *)
Definition WithHostNetwork : Option :=
  fun s =>
    (mkSpec (filter (fun t => negb (is_NetworkNamespace t)) (Namespaces s))
            (CPUQuota s) (MemoryLimit s), None).

End Mutators.

(** A spec has a private network namespace when a network namespace is
    among its namespaces; without one the container shares the network
    of the process that starts it. *)
Definition private_network (s : Spec) : bool :=
  existsb is_NetworkNamespace (Namespaces s).

End OCISpec.

(** ** cmd/function-runtime-oci/internal/config *)

Module Config.

Record Args : Type := mkArgs { ImageTarBall : string }.

Definition NetworkPolicy := string.
Definition NetworkPolicyRunner : NetworkPolicy := "Runner".
Definition NetworkPolicyIsolated : NetworkPolicy := "Isolated".

Record ResourcesConfig : Type := mkResourcesConfig {
  MemoryLimit : string;
  CPULimit : string;
  NetworkPolicy_ : NetworkPolicy
}.

End Config.

(** ** The spec options of the two spark packages *)

Definition errCPULimit := "cannot limit container CPU".
Definition errMemoryLimit := "cannot limit container memory".
Definition errHostNetwork := "cannot configure container to run in host network namespace".

Section SpecOptions.

Variable parseCPU : string -> result Z.
Variable parseMemory : string -> result Z.

(** [FromRunFunctionConfig] of cmd/xfn-oci/spark. *)
Definition FromRunFunctionConfig (cfg : option RunFunctionConfig) : OCISpec.Option :=
  fun s =>
    let l := GetCpu (GetLimits (GetResources cfg)) in
    match (if negb (String.eqb l "") then OCISpec.WithCPULimit parseCPU l s
           else (s, None)) with
    | (s, Some err) => (s, errors_Wrap (Some err) errCPULimit)
    | (s, None) =>
        let l := GetMemory (GetLimits (GetResources cfg)) in
        match (if negb (String.eqb l "") then OCISpec.WithMemoryLimit parseMemory l s
               else (s, None)) with
        | (s, Some err) => (s, errors_Wrap (Some err) errMemoryLimit)
        | (s, None) =>
            match (if NetworkPolicy_pb_eqb (GetPolicy (GetNetwork cfg)) NETWORK_POLICY_RUNNER
                   then OCISpec.WithHostNetwork s
                   else (s, None)) with
            | (s, Some err) => (s, errors_Wrap (Some err) errHostNetwork)
            | (s, None) => (s, None)
            end
        end
    end.

(** [FromResourcesConfig] of cmd/function-runtime-oci/spark. *)
Definition FromResourcesConfig (cfg : option Config.ResourcesConfig) : OCISpec.Option :=
  fun s =>
    match cfg with
    | None => (s, None)
    | Some cfg =>
        let l := Config.CPULimit cfg in
        match (if negb (String.eqb l "") then OCISpec.WithCPULimit parseCPU l s
               else (s, None)) with
        | (s, Some err) => (s, errors_Wrap (Some err) errCPULimit)
        | (s, None) =>
            let l := Config.MemoryLimit cfg in
            match (if negb (String.eqb l "") then OCISpec.WithMemoryLimit parseMemory l s
                   else (s, None)) with
            | (s, Some err) => (s, errors_Wrap (Some err) errMemoryLimit)
            | (s, None) =>
                match (if String.eqb (Config.NetworkPolicy_ cfg) Config.NetworkPolicyRunner
                       then OCISpec.WithHostNetwork s
                       else (s, None)) with
                | (s, Some err) => (s, errors_Wrap (Some err) errHostNetwork)
                | (s, None) => (s, None)
                end
            end
        end
    end.

End SpecOptions.

(** ** Effects of a spark run *)

Inductive BundlerKind : Type :=
| Uncompressed
| Overlay.

(** What the external OCI runtime process would do if left alone: exit
    with a status once [after] nanoseconds have passed since the run's
    context was created, or never exit. *)
Inductive ProcBehaviour : Type :=
| Exits (after : Z) (code : Z)
| NeverExits.

(** What becomes of the process under the context it was started with. *)
Inductive Fate : Type :=
| Exited (code : Z)
| Killed
| Running.

(** The external process: its behaviour, what it writes to its standard
    output and standard error, and the failures of reading its pipes and of
    waiting for it that are not its exit status. *)
Record Process : Type := mkProcess {
  behaviour : ProcBehaviour;
  proc_stdout : bytes;
  proc_stderr : bytes;
  stdout_fault : option error;
  stderr_fault : option error;
  wait_fault : option error
}.

(** [context.Context], by its deadline: a duration in nanoseconds counted
    from the creation of the context; [None] for [context.Background()]. *)
Record Context : Type := mkContext { Deadline : option Z }.

Definition context_Background : Context := mkContext None.
Definition context_WithTimeout (parent : Context) (t : Z) : Context :=
  match Deadline parent with
  | None => mkContext (Some t)
  | Some d => mkContext (Some (Z.min d t))
  end.

(** [exec.Cmd], as [exec.CommandContext(ctx, name, arg...)] makes it. *)
Record Cmd : Type := mkCmd {
  cmd_ctx : Context;
  cmd_name : string;
  cmd_args : list string
}.

Definition exec_CommandContext (ctx : Context) (name : string) (arg : list string) : Cmd :=
  mkCmd ctx name arg.

(** The effects of a run that the properties below speak about. *)
Inductive Event : Type :=
| EvSupported (dir : string)               (* overlay.Supported(dir) *)
| EvBundle (kind : BundlerKind) (ok : bool) (* s.Bundle(...), and whether it returned a bundle *)
| EvStart (deadline : option Z)            (* cmd.Start() succeeded, under this deadline *)
| EvKill                                   (* the context's deadline killed the process *)
| EvWait (f : Fate)                        (* cmd.Wait() collected the process *)
| EvCleanup                                (* b.Cleanup() *)
| EvWrite (p : bytes).                     (* os.Stdout.Write(p) *)

(** Everything outside the repository that a spark run calls. *)
Record World : Type := mkWorld {
  stdin : Reader;
  proto_Unmarshal : bytes -> result RunFunctionRequest;
  json_Unmarshal_request : bytes -> result RunFunctionRequest;
  Struct_MarshalJSON : Struct -> result bytes;
  json_Unmarshal_config : bytes -> result Container.RunFunctionRequestConfig;
  uuid_NewString : string;
  overlay_Supported : string -> bool;
  overlay_NewCachingBundler : string -> err_result;
  store_NewDigest : string -> err_result;
  name_ParseReference : string -> string -> result string;
  oci_ParseCertificatesFromPath : string -> err_result;
  puller_Image : Context -> string -> option ImagePullConfig -> result string;
  tarball_ImageFromPath : string -> result string;
  parseCPU : string -> result Z;
  parseMemory : string -> result Z;
  bundler_Bundle : BundlerKind -> Context -> string -> string -> OCISpec.Option -> result string;
  filepath_Join : string -> string -> string;
  os_MkdirAll : string -> err_result;
  json_Marshal_request : RunFunctionRequest -> result bytes;
  protojson_Marshal : RunFunctionRequest -> result bytes;
  cmd_StdoutPipe : err_result;
  cmd_StderrPipe : err_result;
  cmd_Start : err_result;
  process : Process;
  bundle_Cleanup : err_result;
  os_Stdout_Write : bytes -> err_result
}.

(** The same world with another outcome of [b.Cleanup()]. *)
Definition set_bundle_Cleanup (w : World) (r : err_result) : World :=
  mkWorld (stdin w) (proto_Unmarshal w) (json_Unmarshal_request w)
    (Struct_MarshalJSON w) (json_Unmarshal_config w) (uuid_NewString w)
    (overlay_Supported w) (overlay_NewCachingBundler w) (store_NewDigest w)
    (name_ParseReference w) (oci_ParseCertificatesFromPath w) (puller_Image w)
    (tarball_ImageFromPath w) (parseCPU w) (parseMemory w) (bundler_Bundle w)
    (filepath_Join w) (os_MkdirAll w) (json_Marshal_request w)
    (protojson_Marshal w) (cmd_StdoutPipe w) (cmd_StderrPipe w) (cmd_Start w)
    (process w) r (os_Stdout_Write w).

(** *** The monad of function bodies

    A statement of a Go function body either goes on with a value, returns
    from the function with an error result, or never comes back.  The state
    is the trace of effects so far. *)
Inductive Step (A : Type) : Type :=
| Next (a : A)
| Returns (err : err_result)
| Blocks.
Arguments Next {A} a.
Arguments Returns {A} err.
Arguments Blocks {A}.

Definition Go (A : Type) : Type := list Event -> Step A * list Event.

Definition ret {A} (a : A) : Go A := fun tr => (Next a, tr).

Definition bind {A B} (m : Go A) (k : A -> Go B) : Go B :=
  fun tr =>
    match m tr with
    | (Next a, tr') => k a tr'
    | (Returns err, tr') => (Returns err, tr')
    | (Blocks, tr') => (Blocks, tr')
    end.

(** The [return err] statement. *)
Definition Return {A} (err : err_result) : Go A := fun tr => (Returns err, tr).

Definition emit (ev : Event) : Go unit := fun tr => (Next tt, tr ++ [ev]).

Definition block {A} : Go A := fun tr => (Blocks, tr).

Declare Scope go_scope.
Delimit Scope go_scope with go.
Notation "x <- m ;; k" := (bind m (fun x => k))
  (at level 61, m at next level, right associativity) : go_scope.
Notation "' pat <- m ;; k" := (bind m (fun x => match x with pat => k end))
  (at level 61, pat pattern, m at next level, right associativity) : go_scope.
Local Open Scope go_scope.

(** [v, err := call; if err != nil { handler }]: the handler ends in a
    [return], so that the body goes on only with the value. *)
Definition check {A} (m : Go (result A)) (handler : error -> Go Empty_set) : Go A :=
  r <- m ;;
  match r with
  | Ok v => ret v
  | Err err => x <- handler err ;; match x with end
  end.

(** [if err := call; err != nil { handler }]. *)
Definition check_err (m : Go err_result) (handler : error -> Go Empty_set) : Go unit :=
  r <- m ;;
  match r with
  | None => ret tt
  | Some err => x <- handler err ;; match x with end
  end.

(** How a call of a function ends, and the effects it had. *)
Inductive Completion : Type :=
| Returned (err : err_result)
| Blocked.

Record Outcome : Type := mkOutcome {
  completion : Completion;
  trace : list Event
}.

Definition call (body : Go Empty_set) : Outcome :=
  match body [] with
  | (Next x, _) => match x with end
  | (Returns err, tr) => mkOutcome (Returned err) tr
  | (Blocks, tr) => mkOutcome Blocked tr
  end.

(** *** The calls a run makes *)

(** The process ends on its own when it exits before the deadline; past
    the deadline the context kills it; without a deadline a process that
    never exits keeps running. *)
Definition fate (ctx : Context) (b : ProcBehaviour) : Fate :=
  match b, Deadline ctx with
  | Exits after code, Some t => if after <? t then Exited code else Killed
  | Exits after code, None => Exited code
  | NeverExits, Some _ => Killed
  | NeverExits, None => Running
  end.

(** The read end of a pipe of the process: what the process wrote, then
    EOF (or the read fault) once the process is gone; while the process
    runs the pipe stays open. *)
Definition pipe (f : Fate) (written : bytes) (fault : option error) : Reader :=
  mkReader written
    match f with
    | Running => Stalls
    | _ => match fault with Some e => Fault e | None => EOF end
    end.

Section Calls.

Variable w : World.

Definition pure {A} (v : A) : Go A := ret v.

(** [io.ReadAll(r)]. *)
Definition ReadAll (r : Reader) : Go (result bytes) :=
  match io_ReadAll r with
  | None => block
  | Some (_, Some err) => ret (Err err)
  | Some (b, None) => ret (Ok b)
  end.

(** [overlay.Supported(dir)]. *)
Definition Supported (dir : string) : Go bool :=
  _ <- emit (EvSupported dir) ;; ret (overlay_Supported w dir).

(** [uncompressed.NewBundler(dir)]. *)
Definition uncompressed_NewBundler (dir : string) : BundlerKind := Uncompressed.

(** [overlay.NewCachingBundler(dir)]. *)
Definition NewCachingBundler (dir : string) : Go (BundlerKind * err_result) :=
  ret (Overlay, overlay_NewCachingBundler w dir).

(** [s.Bundle(ctx, image, runID, option)]; the bundle is named by its path. *)
Definition Bundle (s : BundlerKind) (ctx : Context) (image runID : string)
           (o : OCISpec.Option) : Go (result string) :=
  let r := bundler_Bundle w s ctx image runID o in
  _ <- emit (EvBundle s match r with Ok _ => true | Err _ => false end) ;;
  ret r.

(** [b.Cleanup()]. *)
Definition Cleanup : Go err_result :=
  _ <- emit EvCleanup ;; ret (bundle_Cleanup w).

(** [cmd.Start()] of a command made by [exec.CommandContext(ctx, ...)].
    The life of the started process overlaps the reads that follow; what
    the context does to it is logged here. *)
Definition Start (cmd : Cmd) : Go err_result :=
  match cmd_Start w with
  | Some err => ret (Some err)
  | None =>
      _ <- emit (EvStart (Deadline (cmd_ctx cmd))) ;;
      _ <- match fate (cmd_ctx cmd) (behaviour (process w)) with
           | Killed => emit EvKill
           | _ => ret tt
           end ;;
      ret None
  end.

(** [cmd.StdoutPipe()] and [cmd.StderrPipe()]. *)
Definition StdoutPipe (cmd : Cmd) : Go (result Reader) :=
  match cmd_StdoutPipe w with
  | Some err => ret (Err err)
  | None => ret (Ok (pipe (fate (cmd_ctx cmd) (behaviour (process w)))
                          (proc_stdout (process w)) (stdout_fault (process w))))
  end.

Definition StderrPipe (cmd : Cmd) : Go (result Reader) :=
  match cmd_StderrPipe w with
  | Some err => ret (Err err)
  | None => ret (Ok (pipe (fate (cmd_ctx cmd) (behaviour (process w)))
                          (proc_stderr (process w)) (stderr_fault (process w))))
  end.

(** [cmd.Wait()]: an [*exec.ExitError] for a non-zero exit status or a
    kill, otherwise the fault of waiting, if any. *)
Definition Wait (cmd : Cmd) : Go err_result :=
  match fate (cmd_ctx cmd) (behaviour (process w)) with
  | Running => block
  | Killed =>
      _ <- emit (EvWait Killed) ;; ret (Some (exec_ExitError (-1) []))
  | Exited code =>
      _ <- emit (EvWait (Exited code)) ;;
      ret (if code =? 0 then wait_fault (process w)
           else Some (exec_ExitError code []))
  end.

(** [os.Stdout.Write(p)]. *)
Definition Stdout_Write (p : bytes) : Go err_result :=
  _ <- emit (EvWrite p) ;; ret (os_Stdout_Write w p).

End Calls.

(** [exitErr.Stderr = stderr] on the exit error found by [errors.As]. *)
Fixpoint set_Stderr (err : error) (stderr : bytes) : error :=
  match err with
  | errors_New msg => errors_New msg
  | exec_ExitError code _ => exec_ExitError code stderr
  | Wrapped e msg => Wrapped (set_Stderr e stderr) msg
  end.

(** ** cmd/xfn-oci/spark *)

Module XfnSpark.

Definition errReadRequest := "cannot read request from stdin".
Definition errUnmarshalRequest := "cannot unmarshal request data from stdin".
Definition errNewBundleStore := "cannot create OCI runtime bundle store".
Definition errNewDigestStore := "cannot create OCI image digest store".
Definition errParseRef := "cannot parse OCI image reference".
Definition errPull := "cannot pull OCI image".
Definition errBundleFn := "cannot create OCI runtime bundle".
Definition errMkRuntimeRootdir := "cannot make OCI runtime cache".
Definition errRuntime := "OCI runtime error".
Definition errCleanupBundle := "cannot cleanup OCI runtime bundle".
Definition errWriteResponse := "cannot write response data to stdout".

Definition ociRuntimeRoot := "runtime".

(** [25 * time.Second], in nanoseconds. *)
Definition defaultTimeout : Z := 25 * 1000000000.

Record Command : Type := mkCommand {
  CacheDir : string;
  Runtime : string;
  MaxStdioBytes : Z;
  CABundlePath : string
}.

Section Run.

Variable w : World.

(** [Command.Run].  The deferred [cancel()] has no effect that the
    trace records. *)
Definition Run (c : Command) (registry defaultImage : string) : Go Empty_set :=
  pb <- check (ReadAll (stdin w))
          (fun err => Return (errors_Wrap (Some err) errReadRequest)) ;;
  req <- check (pure (proto_Unmarshal w pb))
           (fun err => Return (errors_Wrap (Some err) errUnmarshalRequest)) ;;
  match GetInput (Some req) with
  | None => Return (Some (errors_New "no input provided"))
  | Some input =>
  confJSON <- check (pure (Struct_MarshalJSON w input))
                (fun err => Return (errors_Wrap (Some err) "failed to marshal input to JSON")) ;;
  conf <- check (pure (json_Unmarshal_config w confJSON))
            (fun err => Return (errors_Wrap (Some err)
               (String.append "failed to unmarshal input as config "
                              (string_of_list_byte confJSON)))) ;;
  let t := AsDuration (GetTimeout (GetRunFunctionConfig (Container.Spec conf))) in
  let t := if t =? 0 then defaultTimeout else t in
  let ctx := context_WithTimeout context_Background t in
  let runID := uuid_NewString w in
  let s := uncompressed_NewBundler (CacheDir c) in
  supported <- Supported w (CacheDir c) ;;
  '(s, err) <- (if supported then NewCachingBundler w (CacheDir c)
                else pure (s, None)) ;;
  _ <- check_err (pure err)
         (fun err => Return (errors_Wrap (Some err) errNewBundleStore)) ;;
  _ <- check_err (pure (store_NewDigest w (CacheDir c)))
         (fun err => Return (errors_Wrap (Some err) errNewDigestStore)) ;;
  let img := GetImage (Container.Spec conf) in
  let img := if String.eqb img "" then defaultImage else img in
  r <- check (pure (name_ParseReference w img registry))
         (fun err => Return (errors_Wrap (Some err) errParseRef)) ;;
  _ <- (if negb (String.eqb (CABundlePath c) "")
        then check_err (pure (oci_ParseCertificatesFromPath w (CABundlePath c)))
               (fun err => Return (errors_Wrap (Some err) "Cannot parse CA bundle"))
        else pure tt) ;;
  image <- check (pure (puller_Image w ctx r (GetImagePullConfig (Container.Spec conf))))
             (fun err => Return (errors_Wrap (Some err) errPull)) ;;
  b <- check (Bundle w s ctx image runID
                (FromRunFunctionConfig (parseCPU w) (parseMemory w)
                   (GetRunFunctionConfig (Container.Spec conf))))
         (fun err => Return (errors_Wrap (Some err) errBundleFn)) ;;
  let root := filepath_Join w (CacheDir c) ociRuntimeRoot in
  _ <- check_err (pure (os_MkdirAll w root))
         (fun err => _ <- Cleanup w ;;
                     Return (errors_Wrap (Some err) errMkRuntimeRootdir)) ;;
  let cmd := exec_CommandContext ctx (Runtime c)
               [String.append "--root=" root; "run";
                String.append "--bundle=" b; runID] in
  reqJSON <- check (pure (json_Marshal_request w req))
               (fun err => _ <- Cleanup w ;;
                           Return (errors_Wrap (Some err) "failed to marshal request to JSON")) ;;
  stdoutPipe <- check (StdoutPipe w cmd)
                  (fun err => _ <- Cleanup w ;;
                              Return (errors_Wrap (Some err) errRuntime)) ;;
  stderrPipe <- check (StderrPipe w cmd)
                  (fun err => _ <- Cleanup w ;;
                              Return (errors_Wrap (Some err) errRuntime)) ;;
  _ <- check_err (Start w cmd)
         (fun err => _ <- Cleanup w ;;
                     Return (errors_Wrap (Some err) errRuntime)) ;;
  stdout <- check (ReadAll (limitReaderIfNonZero stdoutPipe (MaxStdioBytes c)))
              (fun err => _ <- Cleanup w ;;
                          Return (errors_Wrap (Some err) errRuntime)) ;;
  stderr <- check (ReadAll (limitReaderIfNonZero stderrPipe (MaxStdioBytes c)))
              (fun err => _ <- Cleanup w ;;
                          Return (errors_Wrap (Some err) errRuntime)) ;;
  _ <- check_err (Wait w cmd)
         (fun err =>
            let err := match errors_As_ExitError err with
                       | Some _ => set_Stderr err stderr
                       | None => err
                       end in
            _ <- Cleanup w ;;
            Return (errors_Wrap (Some err) errRuntime)) ;;
  _ <- check_err (Cleanup w)
         (fun err => Return (errors_Wrap (Some err) errCleanupBundle)) ;;
  err <- Stdout_Write w stdout ;;
  Return (errors_Wrap err errWriteResponse)
  end.

End Run.

End XfnSpark.

(** ** cmd/function-runtime-oci/spark *)

Module Spark.

Definition errReadRequest := "cannot read request from stdin".
Definition errUnmarshalRequest := "cannot unmarshal request data from stdin".
Definition errNewBundleStore := "cannot create OCI runtime bundle store".
Definition errOpenTarBall := "cannot open OCI image tarball".
Definition errBundleFn := "cannot create OCI runtime bundle".
Definition errMkRuntimeRootdir := "cannot make OCI runtime cache".
Definition errCleanupBundle := "cannot cleanup OCI runtime bundle".
Definition errWriteResponse := "cannot write response data to stdout".
Definition errMarshalRequest := "cannot marshal request data to stdout".

Definition ociRuntimeRoot := "runtime".

Record Command : Type := mkCommand {
  CacheDir : string;
  Runtime : string;
  MaxStdioBytes : Z;
  ResourcesConfig : Config.ResourcesConfig
}.

Section Run.

Variable w : World.

(** [Command.Run]. *)
Definition Run (c : Command) (args : Config.Args) : Go Empty_set :=
  pb <- check (ReadAll (stdin w))
          (fun err => Return (errors_Wrap (Some err) errReadRequest)) ;;
  req <- check (pure (json_Unmarshal_request w pb))
           (fun err => Return (errors_Wrap (Some err) errUnmarshalRequest)) ;;
  let runID := uuid_NewString w in
  let s := uncompressed_NewBundler (CacheDir c) in
  supported <- Supported w (CacheDir c) ;;
  '(s, err) <- (if supported then NewCachingBundler w (CacheDir c)
                else pure (s, None)) ;;
  _ <- check_err (pure err)
         (fun err => Return (errors_Wrap (Some err) errNewBundleStore)) ;;
  img <- check (pure (tarball_ImageFromPath w (Config.ImageTarBall args)))
           (fun err => Return (errors_Wrap (Some err) errOpenTarBall)) ;;
  let ctx := context_Background in
  b <- check (Bundle w s ctx img runID
                (FromResourcesConfig (parseCPU w) (parseMemory w)
                   (Some (ResourcesConfig c))))
         (fun err => Return (errors_Wrap (Some err) errBundleFn)) ;;
  let root := filepath_Join w (CacheDir c) ociRuntimeRoot in
  _ <- check_err (pure (os_MkdirAll w root))
         (fun err => _ <- Cleanup w ;;
                     Return (errors_Wrap (Some err) errMkRuntimeRootdir)) ;;
  let cmd := exec_CommandContext ctx (Runtime c)
               [String.append "--root=" root; "run";
                String.append "--bundle=" b; runID] in
  reqJSON <- check (pure (protojson_Marshal w req))
               (fun err => Return (errors_Wrap (Some err) errMarshalRequest)) ;;
  stdoutPipe <- check (StdoutPipe w cmd)
                  (fun err => _ <- Cleanup w ;;
                              Return (errors_Wrap (Some err) "cannot get stdout pipe")) ;;
  stderrPipe <- check (StderrPipe w cmd)
                  (fun err => _ <- Cleanup w ;;
                              Return (errors_Wrap (Some err) "cannot get stderr pipe")) ;;
  _ <- check_err (Start w cmd)
         (fun err => _ <- Cleanup w ;;
                     Return (errors_Wrap (Some err) "cannot start command")) ;;
  stdout <- check (ReadAll (limitReaderIfNonZero stdoutPipe (MaxStdioBytes c)))
              (fun err => _ <- Cleanup w ;;
                          Return (errors_Wrap (Some err) "cannot read stdout")) ;;
  stderr <- check (ReadAll (limitReaderIfNonZero stderrPipe (MaxStdioBytes c)))
              (fun err => _ <- Cleanup w ;;
                          Return (errors_Wrap (Some err) "cannot read stderr")) ;;
  _ <- check_err (Wait w cmd)
         (fun err =>
            let msg := "while waiting for command" in
            let msg := match errors_As_ExitError err with
                       | Some _ => String.append msg
                                     (String.append ": " (string_of_list_byte stderr))
                       | None => msg
                       end in
            _ <- Cleanup w ;;
            Return (errors_Wrap (Some err) msg)) ;;
  _ <- check_err (Cleanup w)
         (fun err => Return (errors_Wrap (Some err) errCleanupBundle)) ;;
  err <- Stdout_Write w stdout ;;
  Return (errors_Wrap err errWriteResponse).

End Run.

End Spark.

(** ** Observations on traces *)

Definition is_cleanup (ev : Event) : bool :=
  match ev with EvCleanup => true | _ => false end.

Definition is_write (ev : Event) : bool :=
  match ev with EvWrite _ => true | _ => false end.

Definition is_supported (ev : Event) : bool :=
  match ev with EvSupported _ => true | _ => false end.

Definition is_bundle (ev : Event) : bool :=
  match ev with EvBundle _ _ => true | _ => false end.

(** How many times [b.Cleanup()] was invoked. *)
Definition cleanups (tr : list Event) : nat := List.length (filter is_cleanup tr).

(** What the run wrote to its standard output, write after write. *)
Definition written (tr : list Event) : list bytes :=
  flat_map (fun ev => match ev with EvWrite p => [p] | _ => [] end) tr.

(** Whether the bundle store returned a bundle. *)
Definition bundle_created (tr : list Event) : bool :=
  existsb (fun ev => match ev with EvBundle _ true => true | _ => false end) tr.

(** What a read through [limitReaderIfNonZero] with limit [n] takes from a
    stream holding [d]. *)
Definition captured (n : Z) (d : bytes) : bytes :=
  if n =? 0 then d else firstn (Z.to_nat n) d.

(** ** A concrete world

    A request for the image example.com/fn:v1, an empty cache directory
    that supports overlays, a runtime that answers on its standard output.
    The parts that the examples vary are arguments. *)

Definition sample_request : RunFunctionRequest :=
  mkRunFunctionRequest (Some (mkStruct (list_byte_of_string "{}"))) [].

Definition sample_quantity (l : string) : result Z :=
  if String.eqb l "500m" then Ok 50000
  else if String.eqb l "500Mi" then Ok 524288000
  else Err (errors_New "quantities must match the regular expression").

Definition sample_run_config (policy : NetworkPolicy_pb) (cpu : string)
           (timeout : option Z) : RunFunctionConfig :=
  mkRunFunctionConfig
    (Some (mkResourceConfig (Some (mkResourceLimits cpu ""))))
    (Some (mkNetworkConfig policy))
    timeout.

Definition sample_config (timeout : option Z) : Container.RunFunctionRequestConfig :=
  Container.mkRunFunctionRequestConfig
    (Container.mkTypeMeta "RunFunctionRequestConfig" "v1alpha1")
    (mkRunFunctionRequestConfigSpec "example.com/fn:v1" None
       (Some (sample_run_config NETWORK_POLICY_ISOLATED "" timeout))).

Definition sample_spec : OCISpec.Spec :=
  OCISpec.mkSpec
    [OCISpec.PIDNamespace; OCISpec.NetworkNamespace; OCISpec.MountNamespace;
     OCISpec.UserNamespace]
    None None.

Definition sample_process (b : ProcBehaviour) : Process :=
  mkProcess b (list_byte_of_string "response") (list_byte_of_string "diagnostics")
    None None None.

Definition sample_world (timeout : option Z) (marshal : result bytes)
           (p : Process) (cleanup : err_result) : World :=
  mkWorld
    (mkReader (list_byte_of_string "request") EOF)
    (fun _ => Ok sample_request)
    (fun _ => Ok sample_request)
    (fun s => Ok (struct_fields s))
    (fun _ => Ok (sample_config timeout))
    "0b2f9d4e"
    (fun _ => true)
    (fun _ => None)
    (fun _ => None)
    (fun img _ => Ok img)
    (fun _ => None)
    (fun _ ref _ => Ok ref)
    (fun path => Ok path)
    sample_quantity
    sample_quantity
    (fun _ _ _ runID o =>
       match o sample_spec with
       | (_, Some err) => Err err
       | (_, None) => Ok (String.append "/xfn/" runID)
       end)
    (fun a b => String.append a (String.append "/" b))
    (fun _ => None)
    (fun _ => marshal)
    (fun _ => marshal)
    None None None
    p
    cleanup
    (fun _ => None).

Definition sample_xfn_command (maxStdioBytes : Z) : XfnSpark.Command :=
  XfnSpark.mkCommand "/xfn" "crun" maxStdioBytes "".

Definition sample_spark_command (maxStdioBytes : Z) : Spark.Command :=
  Spark.mkCommand "/function-runtime-oci-cache" "crun" maxStdioBytes
    (Config.mkResourcesConfig "" "" Config.NetworkPolicyIsolated).

Definition sample_args : Config.Args := Config.mkArgs "/function.tar".

Definition sample_host (setuid_cap setgid_cap : bool) : Host :=
  mkHost 1000 1000 setuid_cap setgid_cap.

(** What [SetUID] and [MapToRoot] leave in a runner. *)
Definition mapping (r : Container.Runner) : bool * Z * Z :=
  (Container.setuid r, Container.rootUID r, Container.rootGID r).

Definition mapping_oci (r : ContainerOCI.Runner) : bool * Z * Z :=
  (ContainerOCI.setuid r, ContainerOCI.rootUID r, ContainerOCI.rootGID r).

(** ** io: writers and copying *)

(** An [io.Writer] that appends to [content].  [room] bounds what it still
    accepts: once that many bytes are taken, a write stops short and reports
    the writer's error (a full disk); [None] is a writer that never fails. *)
Record Writer : Type := mkWriter {
  content : bytes;
  room : option (nat * error)
}.

(** [dst.Write(p)]: the writer afterwards, the number of bytes taken and the
    error. *)
Definition Writer_Write (dst : Writer) (p : bytes) : Writer * Z * err_result :=
  match room dst with
  | None => (mkWriter (content dst ++ p) None, Z.of_nat (List.length p), None)
  | Some (k, e) =>
      if (List.length p <=? k)%nat
      then (mkWriter (content dst ++ p) (Some ((k - List.length p)%nat, e)),
            Z.of_nat (List.length p), None)
      else (mkWriter (content dst ++ firstn k p) (Some (0%nat, e)),
            Z.of_nat k, Some e)
  end.

(** An error value as [errors.Is(err, io.EOF)] sees it: the sentinel
    [io.EOF], or an error that is not [io.EOF]. *)
Inductive io_error : Type :=
| io_EOF
| not_EOF (err : error).

(** [io.Copy(dst, src)]: copies until [src] is at EOF or an error occurs;
    EOF is not reported.  A write error comes before the ending of the
    source.  [None] when the call blocks. *)
Definition io_Copy (dst : Writer) (src : Reader)
  : option (Writer * Z * option io_error) :=
  match Writer_Write dst (data src) with
  | (dst', written, Some e) => Some (dst', written, Some (not_EOF e))
  | (dst', written, None) =>
      match ending src with
      | EOF => Some (dst', written, None)
      | Fault e => Some (dst', written, Some (not_EOF e))
      | Stalls => None
      end
  end.

(** [io.CopyN(dst, src, n)], with the source as the copy leaves it:
    [io.Copy] from [io.LimitReader(src, n)]; nil when [n] bytes were copied,
    [io.EOF] when the source ended early without an error. *)
Definition io_CopyN (dst : Writer) (src : Reader) (n : Z)
  : option (Writer * Reader * Z * option io_error) :=
  match io_Copy dst (io_LimitReader src n) with
  | None => None
  | Some (dst', written, err) =>
      let src' := mkReader (skipn (Z.to_nat written) (data src)) (ending src) in
      if written =? n then Some (dst', src', n, None)
      else
        match err with
        | None => if written <? n then Some (dst', src', written, Some io_EOF)
                  else Some (dst', src', written, None)
        | Some e => Some (dst', src', written, Some e)
        end
  end.

(** The loop of [copyChunks], entered with [written] bytes copied so far.
    [fuel] bounds the number of iterations; [None] when the loop has not
    returned within them, or blocks. *)
Fixpoint copyChunks_loop (fuel : nat) (dst : Writer) (src : Reader)
         (chunkSize written : Z) : option (Z * err_result * Writer) :=
  match fuel with
  | O => None
  | S fuel =>
      match io_CopyN dst src chunkSize with
      | None => None
      | Some (dst, src, w, err) =>
          let written := written + w in
          match err with
          | Some io_EOF => Some (written, None, dst)
          | Some (not_EOF e) => Some (written, Some e, dst)
          | None => copyChunks_loop fuel dst src chunkSize written
          end
      end
  end.

(** [copyChunks] of cmd/function-runtime-oci/start: the bytes written, the
    error, and the destination afterwards. *)
Definition copyChunks (fuel : nat) (dst : Writer) (src : Reader) (chunkSize : Z)
  : option (Z * err_result * Writer) :=
  copyChunks_loop fuel dst src chunkSize 0.
(** What [copyChunks] reports of an [io.Copy]: EOF and success alike are a
    nil error. *)
Definition copied (written : Z) (r : option (Writer * Z * option io_error))
  : option (Z * err_result * Writer) :=
  match r with
  | None => None
  | Some (dst', n, err) =>
      Some (written + n,
            match err with Some (not_EOF e) => Some e | _ => None end,
            dst')
  end.

(** ** cmd/xfn-oci/spark: the image client options *)

(** [oci.ImagePullPolicy]. *)
Inductive oci_ImagePullPolicy : Type :=
| ImagePullPolicyAlways
| ImagePullPolicyNever
| ImagePullPolicyIfNotPresent.

Section ImageClient.

(** [oci.ImageClientOptions] with its setters [oci.WithPullPolicy] and
    [oci.WithPullAuth]; the package internal/oci is not among the sources. *)
Variable ImageClientOptions : Type.
Variable oci_WithPullPolicy : oci_ImagePullPolicy -> ImageClientOptions -> ImageClientOptions.
Variable oci_WithPullAuth : ImagePullAuth -> ImageClientOptions -> ImageClientOptions.

Definition GetPullPolicy (cfg : option ImagePullConfig) : ImagePullPolicy_pb :=
  match cfg with None => IMAGE_PULL_POLICY_UNSPECIFIED | Some c => PullPolicy c end.

Definition GetAuth (cfg : option ImagePullConfig) : option ImagePullAuth :=
  match cfg with None => None | Some c => PullAuth c end.

(** [FromImagePullConfig]: the option, applied to the options [o]. *)
Definition FromImagePullConfig (cfg : option ImagePullConfig)
  : ImageClientOptions -> ImageClientOptions :=
  fun o =>
    let o := match GetPullPolicy cfg with
             | IMAGE_PULL_POLICY_ALWAYS => oci_WithPullPolicy ImagePullPolicyAlways o
             | IMAGE_PULL_POLICY_NEVER => oci_WithPullPolicy ImagePullPolicyNever o
             | IMAGE_PULL_POLICY_IF_NOT_PRESENT
             | IMAGE_PULL_POLICY_UNSPECIFIED =>
                 oci_WithPullPolicy ImagePullPolicyIfNotPresent o
             end in
    match GetAuth cfg with
    | Some a =>
        oci_WithPullAuth
          (mkImagePullAuth (Username a) (Password a) (Auth a)
             (IdentityToken a) (RegistryToken a)) o
    | None => o
    end.

End ImageClient.

(** ** cmd/xfn-oci/run: the whole command *)

Module XfnRunCmd.

Definition errWriteFIO := "cannot write YAML to stdout".
Definition errRunFunction := "cannot run function".
Definition errParseImage := "cannot parse image reference".
Definition errResolveKeychain := "cannot resolve default registry authentication keychain".
Definition errAuthCfg := "cannot get default registry authentication credentials".
Definition errParseInput := "cannot parse input".

(** What the command calls outside its package: reference parsing, the
    JSON codecs, the default keychain ([Resolve] on the repository of the
    parsed reference, then [Authorization] of the authenticator it
    yields), the runner's [RunFunction] with the text of its response, and
    the standard output. *)
Record Env : Type := mkEnv {
  name_ParseReference : string -> string -> result string;
  json_Unmarshal : bytes -> result RunFunctionRequest;
  MarshalJSON : Struct -> result bytes;
  json_Unmarshal_config : bytes -> result Container.RunFunctionRequestConfig;
  Keychain_Resolve : string -> result string;
  Authorization : string -> result ImagePullAuth;
  RunFunction : Container.Runner -> RunFunctionRequest -> result string;
  Stdout_WriteString : string -> err_result;
  filepath_Clean : string -> string
}.

(** The same environment with another answer of [Authorization]. *)
Definition set_Authorization (env : Env) (k : string -> result ImagePullAuth) : Env :=
  mkEnv (name_ParseReference env) (json_Unmarshal env) (MarshalJSON env)
    (json_Unmarshal_config env) (Keychain_Resolve env) k (RunFunction env)
    (Stdout_WriteString env) (filepath_Clean env).

Inductive Effect : Type :=
| Printed (line : string)                               (* fmt.Println *)
| Resolved (ref : string)                               (* authn.DefaultKeychain.Resolve *)
| Ran (f : Container.Runner) (req : RunFunctionRequest) (* f.RunFunction *)
| Wrote (s : string).                                   (* os.Stdout.WriteString *)

(** How the command ends: it returns, or panics on a nil pointer. *)
Inductive End : Type :=
| Finished (err : err_result)
| Panicked.

(** The tail of [Run]: build the runner, run the function, write the
    response. *)
Definition run_function (env : Env) (c : XfnRun.Command) (h : Host)
           (registry : string) (req : RunFunctionRequest) (tr : list Effect)
  : End * list Effect :=
  let f := XfnRun.Run_runner (filepath_Clean env) c h registry in
  match RunFunction env f req with
  | Err err => (Finished (errors_Wrap (Some err) errRunFunction), tr ++ [Ran f req])
  | Ok rsp =>
      (Finished (errors_Wrap (Stdout_WriteString env rsp) errWriteFIO),
       tr ++ [Ran f req; Wrote rsp])
  end.

(** [Command.Run]. *)
Definition Run (env : Env) (c : XfnRun.Command) (h : Host)
           (registry defaultImage : string) : End * list Effect :=
  match name_ParseReference env defaultImage registry with
  | Err err => (Finished (errors_Wrap (Some err) errParseImage), [])
  | Ok ref =>
  match json_Unmarshal env (XfnRun.Input_ c) with
  | Err err =>
      (Finished (errors_Wrap (Some err) errParseInput),
       [Printed (string_of_list_byte (XfnRun.Input_ c))])
  | Ok req =>
  let '(cfg, err) :=
    match GetInput (Some req) with
    | Some _ =>
        Container.ConfigFromRequest (MarshalJSON env) (json_Unmarshal_config env)
          (Some req)
    | None => (None, None)
    end in
  match err with
  | Some err => (Finished (Some err), [])
  | None =>
  match cfg with
  | None => (Panicked, [])
  | Some cfg =>
  let pull :=
    match ImagePullConfig_ (Container.Spec cfg) with
    | None => mkImagePullConfig IMAGE_PULL_POLICY_UNSPECIFIED None
    | Some p => p
    end in
  match PullAuth pull with
  | Some _ => run_function env c h registry req []
  | None =>
      match Keychain_Resolve env ref with
      | Err err =>
          (Finished (errors_Wrap (Some err) errResolveKeychain), [Resolved ref])
      | Ok auth =>
          match Authorization env auth with
          | Err err => (Finished (errors_Wrap (Some err) errAuthCfg), [Resolved ref])
          | Ok a =>
              let pull :=
                mkImagePullConfig (PullPolicy pull)
                  (Some (mkImagePullAuth (Username a) (Password a) (Auth a)
                           (IdentityToken a) (RegistryToken a))) in
              run_function env c h registry req [Resolved ref]
          end
      end
  end
  end
  end
  end
  end.

End XfnRunCmd.

(** ** cmd/function-runtime-oci/start: the whole command *)

Module OCIStartCmd.

Definition errListenAndServe := "cannot listen for and serve gRPC API".

(** What the command calls outside its package.  A file opened for reading
    is the reader of its bytes; a created file is a writer.
    [ListenAndServe] returns an error, or serves for ever ([None]). *)
Record Env : Type := mkEnv {
  os_Open : string -> result Reader;
  os_Create : string -> result Writer;
  gzip_NewReader : Reader -> result Reader;
  filepath_Join : string -> string -> string;
  WithImageTarBall : string -> ContainerOCI.RunnerOption;
  ListenAndServe : ContainerOCI.Runner -> string -> string -> option err_result
}.

Inductive Effect : Type :=
| Opened (path : string)
| Closed (path : string)
| Created (path : string)
| Copied (written : Z) (dst : Writer)
| Listened (f : ContainerOCI.Runner) (network address : string).

Inductive End : Type :=
| Finished (err : err_result)
| NeverReturns.

(** [Command.Run].  The copy has fuel for one iteration per byte of the
    decompressed image and one more. *)
Definition Run (env : Env) (c : OCIStart.Command) (args : Config.Args) (h : Host)
  : End * list Effect :=
  let tarball := Config.ImageTarBall args in
  match os_Open env tarball with
  | Err err => (Finished (errors_Wrap (Some err) "cannot open image tarball"), [])
  | Ok compressedTarball =>
  (* from here on the deferred [compressedTarball.Close()] runs at each return *)
  let path := filepath_Join env (OCIStart.CacheDir c) tarball in
  match os_Create env path with
  | Err err =>
      (Finished (errors_Wrap (Some err) "cannot open destination file for tarball"),
       [Opened tarball; Closed tarball])
  | Ok dst =>
  match gzip_NewReader env compressedTarball with
  | Err err =>
      (Finished (errors_Wrap (Some err) "cannot create gzip reader"),
       [Opened tarball; Created path; Closed tarball])
  | Ok src =>
  match copyChunks (S (List.length (data src))) dst src (1024 * 1024) with
  | None => (NeverReturns, [Opened tarball; Created path])
  | Some (written, Some err, dst') =>
      (Finished (errors_Wrap (Some err) "cannot decompress image tarball"),
       [Opened tarball; Created path; Copied written dst'; Closed tarball])
  | Some (written, None, dst') =>
      let f := OCIStart.Run_runner (WithImageTarBall env) c h path in
      match ListenAndServe env f (OCIStart.Network_ c) (OCIStart.Address c) with
      | None =>
          (NeverReturns,
           [Opened tarball; Created path; Copied written dst';
            Listened f (OCIStart.Network_ c) (OCIStart.Address c)])
      | Some err =>
          (Finished (errors_Wrap err errListenAndServe),
           [Opened tarball; Created path; Copied written dst';
            Listened f (OCIStart.Network_ c) (OCIStart.Address c);
            Closed tarball])
      end
  end
  end
  end
  end.

End OCIStartCmd.

(** *** Concrete environments of the run and start commands *)

Definition sample_run_env (input : option Struct) (auth : option ImagePullAuth)
           (keychain : ImagePullAuth) : XfnRunCmd.Env :=
  XfnRunCmd.mkEnv
    (fun img _ => Ok img)
    (fun _ => Ok (mkRunFunctionRequest input []))
    (fun s => Ok (struct_fields s))
    (fun _ => Ok (Container.mkRunFunctionRequestConfig
                    (Container.mkTypeMeta "RunFunctionRequestConfig" "v1alpha1")
                    (mkRunFunctionRequestConfigSpec "example.com/fn:v1"
                       (Some (mkImagePullConfig IMAGE_PULL_POLICY_ALWAYS auth)) None)))
    (fun ref => Ok ref)
    (fun _ => Ok keychain)
    (fun _ _ => Ok "desired: {}")
    (fun _ => None)
    (fun d => d).

Definition sample_run_command (timeout : Z) (pull network : string) : XfnRun.Command :=
  XfnRun.mkCommand "/xfn" timeout pull network 100000 100000
    (list_byte_of_string "{}").

Definition sample_auth (user : string) : ImagePullAuth :=
  mkImagePullAuth user "secret" "" "" "".

Definition sample_start_env (compressed : Ending) (serve : option err_result)
  : OCIStartCmd.Env :=
  OCIStartCmd.mkEnv
    (fun _ => Ok (mkReader (list_byte_of_string "gz") EOF))
    (fun _ => Ok (mkWriter [] None))
    (fun _ => Ok (mkReader (list_byte_of_string "layers") compressed))
    (fun a b => String.append a (String.append "/" b))
    (fun p r => ContainerOCI.WithCacheDir p r)
    (fun _ _ _ => serve).

Definition sample_start_command : OCIStart.Command :=
  OCIStart.mkCommand "/function-runtime-oci-cache" 100000 100000 "tcp" "0.0.0.0:1234".

Definition closes (path : string) (tr : list OCIStartCmd.Effect) : nat :=
  List.length (filter (fun ev => match ev with
                                 | OCIStartCmd.Closed p => String.eqb p path
                                 | _ => false
                                 end) tr).

Definition starts (tr : list Event) : nat :=
  List.length (filter (fun ev => match ev with EvStart _ => true | _ => false end) tr).

(** ** Worlds in which a run gets as far as a given step

    The outcomes of the calls that a run makes up to a step, read off the
    world in the order in which the run makes them. *)

(** The bundler that the probe of [dir] selects. *)
Definition probed_kind (w : World) (dir : string) : BundlerKind :=
  if overlay_Supported w dir then Overlay else Uncompressed.

(** The same world with another standard input. *)
Definition set_stdin (w : World) (r : Reader) : World :=
  mkWorld r (proto_Unmarshal w) (json_Unmarshal_request w)
    (Struct_MarshalJSON w) (json_Unmarshal_config w) (uuid_NewString w)
    (overlay_Supported w) (overlay_NewCachingBundler w) (store_NewDigest w)
    (name_ParseReference w) (oci_ParseCertificatesFromPath w) (puller_Image w)
    (tarball_ImageFromPath w) (parseCPU w) (parseMemory w) (bundler_Bundle w)
    (filepath_Join w) (os_MkdirAll w) (json_Marshal_request w)
    (protojson_Marshal w) (cmd_StdoutPipe w) (cmd_StderrPipe w) (cmd_Start w)
    (process w) (bundle_Cleanup w) (os_Stdout_Write w).

(** The runtime ends on its own with exit status [code] under [ctx]. *)
Definition exits_with (ctx : Context) (p : Process) (code : Z) : Prop :=
  fate ctx (behaviour p) = Exited code.

(** Reading a stream of [d] through the limit [n] meets no read error: the
    pipe has no fault, or the limit cuts the stream before its end. *)
Definition reads_clean (n : Z) (d : bytes) (fault : option error) : Prop :=
  fault = None \/ 0 < n <= Z.of_nat (List.length d).

Module XfnReach.

(** The context of the run: the request's timeout, or the default. *)
Definition context (conf : Container.RunFunctionRequestConfig) : Context :=
  context_WithTimeout context_Background
    (let t := AsDuration (GetTimeout (GetRunFunctionConfig (Container.Spec conf))) in
     if t =? 0 then XfnSpark.defaultTimeout else t).

(** Standard input is read and decodes to [req], whose input decodes to
    [conf]. *)
Definition decoded (w : World) (req : RunFunctionRequest)
           (conf : Container.RunFunctionRequestConfig) : Prop :=
  exists pb input confJSON,
    io_ReadAll (stdin w) = Some (pb, None) /\
    proto_Unmarshal w pb = Ok req /\
    Input req = Some input /\
    Struct_MarshalJSON w input = Ok confJSON /\
    json_Unmarshal_config w confJSON = Ok conf.

(** The selected bundler and the digest store are made, the reference
    parses, the CA bundle (if one is configured) parses, and the pull
    yields [image]. *)
Definition pulled (w : World) (c : XfnSpark.Command) (registry defaultImage : string)
           (conf : Container.RunFunctionRequestConfig) (image : string) : Prop :=
  (overlay_Supported w (XfnSpark.CacheDir c) = true ->
   overlay_NewCachingBundler w (XfnSpark.CacheDir c) = None) /\
  store_NewDigest w (XfnSpark.CacheDir c) = None /\
  exists ref,
    name_ParseReference w
      (if String.eqb (GetImage (Container.Spec conf)) "" then defaultImage
       else GetImage (Container.Spec conf)) registry = Ok ref /\
    (XfnSpark.CABundlePath c <> "" ->
     oci_ParseCertificatesFromPath w (XfnSpark.CABundlePath c) = None) /\
    puller_Image w (context conf) ref (GetImagePullConfig (Container.Spec conf))
    = Ok image.

(** What the bundle store answers for [image]. *)
Definition bundle_result (w : World) (c : XfnSpark.Command)
           (conf : Container.RunFunctionRequestConfig) (image : string)
  : result string :=
  bundler_Bundle w (probed_kind w (XfnSpark.CacheDir c)) (context conf) image
    (uuid_NewString w)
    (FromRunFunctionConfig (parseCPU w) (parseMemory w)
       (GetRunFunctionConfig (Container.Spec conf))).

(** Every step up to and including [cmd.Start()] succeeds. *)
Definition started (w : World) (c : XfnSpark.Command) (registry defaultImage : string)
           (req : RunFunctionRequest) (conf : Container.RunFunctionRequestConfig)
  : Prop :=
  decoded w req conf /\
  exists image b reqJSON,
    pulled w c registry defaultImage conf image /\
    bundle_result w c conf image = Ok b /\
    os_MkdirAll w (filepath_Join w (XfnSpark.CacheDir c) XfnSpark.ociRuntimeRoot) = None /\
    json_Marshal_request w req = Ok reqJSON /\
    cmd_StdoutPipe w = None /\
    cmd_StderrPipe w = None /\
    cmd_Start w = None.

End XfnReach.

Module SparkReach.

(** Standard input is read and decodes to [req]. *)
Definition decoded (w : World) (req : RunFunctionRequest) : Prop :=
  exists pb,
    io_ReadAll (stdin w) = Some (pb, None) /\
    json_Unmarshal_request w pb = Ok req.

(** The selected bundler is made and the tarball opens as [image]. *)
Definition opened (w : World) (c : Spark.Command) (args : Config.Args)
           (image : string) : Prop :=
  (overlay_Supported w (Spark.CacheDir c) = true ->
   overlay_NewCachingBundler w (Spark.CacheDir c) = None) /\
  tarball_ImageFromPath w (Config.ImageTarBall args) = Ok image.

(** What the bundle store answers for [image]. *)
Definition bundle_result (w : World) (c : Spark.Command) (image : string)
  : result string :=
  bundler_Bundle w (probed_kind w (Spark.CacheDir c)) context_Background image
    (uuid_NewString w)
    (FromResourcesConfig (parseCPU w) (parseMemory w)
       (Some (Spark.ResourcesConfig c))).

(** Every step up to and including [cmd.Start()] succeeds. *)
Definition started (w : World) (c : Spark.Command) (args : Config.Args)
           (req : RunFunctionRequest) : Prop :=
  decoded w req /\
  exists image b reqJSON,
    opened w c args image /\
    bundle_result w c image = Ok b /\
    os_MkdirAll w (filepath_Join w (Spark.CacheDir c) Spark.ociRuntimeRoot) = None /\
    protojson_Marshal w req = Ok reqJSON /\
    cmd_StdoutPipe w = None /\
    cmd_StderrPipe w = None /\
    cmd_Start w = None.

End SparkReach.

(** Reading a stream of [d] through the limit [n] meets the read error
    [e]: the pipe has that fault and the limit does not cut the stream
    before its end. *)
Definition reads_faulty (n : Z) (d : bytes) (fault : option error) (e : error) : Prop :=
  fault = Some e /\ (n = 0 \/ Z.of_nat (List.length d) < n).

(** A runtime that exits with [code] after one microsecond; reading its
    standard error fails with [fault], if any. *)
Definition sample_faulty_process (code : Z) (fault : option error) : Process :=
  mkProcess (Exits 1000 code) (list_byte_of_string "response")
    (list_byte_of_string "diagnostics") None fault None.

(** The same world with another answer of the overlay probe. *)
Definition set_overlay_Supported (w : World) (f : string -> bool) : World :=
  mkWorld (stdin w) (proto_Unmarshal w) (json_Unmarshal_request w)
    (Struct_MarshalJSON w) (json_Unmarshal_config w) (uuid_NewString w)
    f (overlay_NewCachingBundler w) (store_NewDigest w)
    (name_ParseReference w) (oci_ParseCertificatesFromPath w) (puller_Image w)
    (tarball_ImageFromPath w) (parseCPU w) (parseMemory w) (bundler_Bundle w)
    (filepath_Join w) (os_MkdirAll w) (json_Marshal_request w)
    (protojson_Marshal w) (cmd_StdoutPipe w) (cmd_StderrPipe w) (cmd_Start w)
    (process w) (bundle_Cleanup w) (os_Stdout_Write w).

(** ** Proof automation *)

Ltac unfold_run :=
  unfold call, XfnSpark.Run, Spark.Run, check, check_err, Supported,
    NewCachingBundler, Bundle, Cleanup, Start, StdoutPipe, StderrPipe, Wait,
    Stdout_Write, ReadAll, bind, pure, ret, Return, emit, block,
    uncompressed_NewBundler, exec_CommandContext, GetInput, errors_Wrap.

Ltac case_step :=
  match goal with
  | |- context [match ?x with _ => _ end] =>
      lazymatch x with
      | context [match _ with _ => _ end] => fail
      | _ => destruct x eqn:?
      end
  | |- context [if ?x then _ else _] =>
      lazymatch x with
      | context [match _ with _ => _ end] => fail
      | _ => destruct x eqn:?
      end
  end.

Ltac run_cases := unfold_run; cbn; repeat (case_step; cbn).

(** Membership of an event in a trace that is known event by event. *)
Ltac in_trace H :=
  cbn in H;
  repeat match type of H with
         | _ \/ _ => destruct H as [H|H]
         end;
  try discriminate H; try contradiction H.

(** ** Readers *)

Lemma io_ReadAll_blocks (r : Reader) (n : Z) :
  io_ReadAll (limitReaderIfNonZero r n) = None -> ending r = Stalls.
Proof.
  unfold limitReaderIfNonZero, io_LimitReader, io_ReadAll.
  destruct (n =? 0); [| destruct (n <=? 0); [| destruct (n <=? _)]]; cbn;
    destruct (ending r); congruence.
Qed.

Lemma pipe_gone_not_stalled (f : Fate) (d : bytes) (ft : option error) :
  f <> Running -> ending (pipe f d ft) <> Stalls.
Proof.
  destruct f; cbn; try congruence; destruct ft; congruence.
Qed.

Lemma fate_deadline_not_running (t : Z) (b : ProcBehaviour) :
  fate (mkContext (Some t)) b <> Running.
Proof.
  destruct b; cbn; [destruct (after <? t) |]; discriminate.
Qed.

(** A read of a pipe of a process that is gone cannot block. *)
Ltac no_block :=
  match goal with
  | H : io_ReadAll (limitReaderIfNonZero (pipe ?f _ _) _) = None |- _ =>
      exfalso; apply io_ReadAll_blocks in H; revert H;
      apply pipe_gone_not_stalled; discriminate
  end.

Lemma captured_limited (r : Reader) (n : Z) :
  data (limitReaderIfNonZero r n) = captured n (data r).
Proof.
  unfold limitReaderIfNonZero, io_LimitReader, captured.
  destruct (Z.eqb_spec n 0) as [->|Hn]; [reflexivity|].
  destruct (Z.leb_spec n 0) as [Hle|Hgt]; cbn.
  - replace (Z.to_nat n) with 0%nat by lia. reflexivity.
  - destruct (Z.leb_spec n (Z.of_nat (List.length (data r)))); cbn; [reflexivity|].
    symmetry. apply firstn_all2. lia.
Qed.

Lemma io_ReadAll_data (r : Reader) (b : bytes) (e : err_result) :
  io_ReadAll r = Some (b, e) -> b = data r.
Proof.
  unfold io_ReadAll. destruct (ending r); congruence.
Qed.

Lemma read_pipe_captured (f : Fate) (d : bytes) (ft : option error) (n : Z)
      (b : bytes) (e : err_result) :
  io_ReadAll (limitReaderIfNonZero (pipe f d ft) n) = Some (b, e) ->
  b = captured n d.
Proof.
  intros H. apply io_ReadAll_data in H. rewrite captured_limited in H. exact H.
Qed.

Ltac read_captured :=
  repeat match goal with
         | H : io_ReadAll (limitReaderIfNonZero (pipe _ _ _) _) = Some _ |- _ =>
             apply read_pipe_captured in H
         end; subst.

Lemma fate_background_not_killed (b : ProcBehaviour) :
  fate context_Background b <> Killed.
Proof.
  destruct b; discriminate.
Qed.

Lemma fate_expired (t : Z) (b : ProcBehaviour) (code : Z) :
  fate (mkContext (Some t)) b = Exited code ->
  match b with Exits after _ => t <= after | NeverExits => True end ->
  False.
Proof.
  destruct b as [after c|]; cbn; [| discriminate].
  destruct (Z.ltb_spec after t); [lia | discriminate].
Qed.

(** ** The stdio byte limit *)

(** With limit 0 reading through [limitReaderIfNonZero] is reading the
    stream itself, unbounded.  With a limit [N > 0] whatever a read to the
    end returns is the first [N] bytes of the stream and holds at most [N]
    bytes; a stream of [N] bytes or more is cut to its first [N] bytes
    with a nil error, and a shorter stream is read as it is. *)
Lemma limitReaderIfNonZero_reads (r : Reader) (limit : Z) :
  (limit = 0 ->
   io_ReadAll (limitReaderIfNonZero r limit) = io_ReadAll r) /\
  (0 < limit ->
   (forall b e, io_ReadAll (limitReaderIfNonZero r limit) = Some (b, e) ->
                b = firstn (Z.to_nat limit) (data r) /\
                Z.of_nat (List.length b) <= limit) /\
   (limit <= Z.of_nat (List.length (data r)) ->
    io_ReadAll (limitReaderIfNonZero r limit)
    = Some (firstn (Z.to_nat limit) (data r), None)) /\
   (Z.of_nat (List.length (data r)) < limit ->
    io_ReadAll (limitReaderIfNonZero r limit) = io_ReadAll r)).
Proof.
  split.
  - intros ->. reflexivity.
  - intros Hpos. repeat split.
    + apply io_ReadAll_data in H. rewrite captured_limited in H.
      unfold captured in H. destruct (Z.eqb_spec limit 0); [lia | exact H].
    + apply io_ReadAll_data in H. rewrite captured_limited in H.
      unfold captured in H. destruct (Z.eqb_spec limit 0); [lia |].
      subst b. rewrite length_firstn. lia.
    + intros Hlen. unfold limitReaderIfNonZero, io_LimitReader.
      destruct (Z.eqb_spec limit 0); [lia|].
      destruct (Z.leb_spec limit 0); [lia|].
      destruct (Z.leb_spec limit (Z.of_nat (List.length (data r)))); [|lia].
      reflexivity.
    + intros Hlen. unfold limitReaderIfNonZero, io_LimitReader.
      destruct (Z.eqb_spec limit 0); [lia|].
      destruct (Z.leb_spec limit 0); [lia|].
      destruct (Z.leb_spec limit (Z.of_nat (List.length (data r)))); [lia|].
      reflexivity.
Qed.

(** ** The request's configuration *)

(** C10. On a request whose [Input] is nil, [ConfigFromRequest] returns a
    non-nil pointer to the zero-valued [RunFunctionRequestConfig] and a nil
    error, whatever the JSON codecs would do. *)
Theorem ConfigFromRequest_nil_input
  (MarshalJSON : Struct -> result bytes)
  (json_Unmarshal : bytes -> result Container.RunFunctionRequestConfig)
  (req : option RunFunctionRequest) :
  GetInput req = None ->
  Container.ConfigFromRequest MarshalJSON json_Unmarshal req
  = (Some Container.zero_RunFunctionRequestConfig, None).
Proof.
  intros H. unfold Container.ConfigFromRequest. rewrite H. reflexivity.
Qed.

Lemma ConfigFromRequest_nil_input_witness :
  Container.ConfigFromRequest
    (fun _ => Err (errors_New "unreachable")) (fun _ => Err (errors_New "unreachable"))
    (Some (mkRunFunctionRequest None (list_byte_of_string "observed")))
  = (Some Container.zero_RunFunctionRequestConfig, None).
Proof.
  apply ConfigFromRequest_nil_input. reflexivity.
Defined.

(** ** The root of the user namespace *)

(** C9. The runner built by the start and run commands maps the configured
    [MapRootUID] and [MapRootGID] to root when the process holds both
    CAP_SETUID and CAP_SETGID, and only then records that it may set UIDs;
    when a capability is missing it maps the process's own UID and GID,
    whatever the configured values are.  For the function-runtime-oci
    commands the option [WithImageTarBall], applied last, is assumed to
    leave the mapping alone. *)
Theorem runner_root_mapping
  (filepath_Clean : string -> string)
  (WithImageTarBall : string -> ContainerOCI.RunnerOption)
  (keeps : forall p r, mapping_oci (WithImageTarBall p r) = mapping_oci r)
  (h : Host) (uid gid : Z) (registry defaultImage path : string) :
  let caps := HasCapSetUID h && HasCapSetGID h in
  let expected := if caps then (true, uid, gid)
                  else (false, os_Getuid h, os_Getgid h) in
  (forall cache net addr,
     mapping (XfnStart.Run_runner filepath_Clean
                (XfnStart.mkCommand cache uid gid net addr) h registry defaultImage)
     = expected) /\
  (forall cache t pull net input,
     mapping (XfnRun.Run_runner filepath_Clean
                (XfnRun.mkCommand cache t pull net uid gid input) h registry)
     = expected) /\
  (forall cache net addr,
     mapping_oci (OCIStart.Run_runner WithImageTarBall
                    (OCIStart.mkCommand cache uid gid net addr) h path)
     = expected) /\
  (forall tarball request,
     mapping_oci (OCIRun.Run_runner WithImageTarBall
                    (OCIRun.mkCommand uid gid tarball request) h path)
     = expected).
Proof.
  intros caps expected. subst caps expected.
  unfold XfnStart.Run_runner, XfnRun.Run_runner, OCIStart.Run_runner,
    OCIRun.Run_runner, Container.NewContainerRunner, ContainerOCI.NewRunner.
  cbn [fold_left]. repeat split; intros.
  - unfold Container.WithDefaultImage.
    destruct (String.eqb defaultImage ""), (HasCapSetUID h && HasCapSetGID h); reflexivity.
  - destruct (HasCapSetUID h && HasCapSetGID h); reflexivity.
  - rewrite keeps. destruct (HasCapSetUID h && HasCapSetGID h); reflexivity.
  - rewrite keeps. destruct (HasCapSetUID h && HasCapSetGID h); reflexivity.
Qed.

Lemma runner_root_mapping_witness :
  mapping (XfnStart.Run_runner (fun d => d)
             (XfnStart.mkCommand "/xfn" 100000 100000 "tcp" "0.0.0.0:1234")
             (sample_host true false) "index.docker.io" "")
  = (false, 1000, 1000) /\
  mapping_oci (OCIStart.Run_runner (fun p r => ContainerOCI.WithCacheDir p r)
                 (OCIStart.mkCommand "/function-runtime-oci-cache" 100000 100000
                    "tcp" "0.0.0.0:1234")
                 (sample_host true true) "/function.tar")
  = (true, 100000, 100000).
Proof.
  pose proof (runner_root_mapping (fun d => d)
                (fun p r => ContainerOCI.WithCacheDir p r)
                (fun p r => eq_refl)) as H.
  split.
  - exact (proj1 (H (sample_host true false) 100000 100000 "index.docker.io" "" "")
                 "/xfn" "tcp" "0.0.0.0:1234").
  - exact (proj1 (proj2 (proj2 (H (sample_host true true) 100000 100000 "" ""
                                  "/function.tar")))
                 "/function-runtime-oci-cache" "tcp" "0.0.0.0:1234").
Defined.

(** ** The network policy *)

Lemma host_network_not_private (s : OCISpec.Spec) :
  OCISpec.private_network (fst (OCISpec.WithHostNetwork s)) = false.
Proof.
  unfold OCISpec.private_network, OCISpec.WithHostNetwork. cbn.
  induction (OCISpec.Namespaces s) as [|t ts IH]; [reflexivity|].
  cbn. destruct (OCISpec.is_NetworkNamespace t) eqn:E; cbn; [exact IH|].
  rewrite E. exact IH.
Qed.

Lemma NetworkPolicy_pb_eqb_spec (a b : NetworkPolicy_pb) :
  NetworkPolicy_pb_eqb a b = true <-> a = b.
Proof.
  destruct a, b; cbn; split; congruence.
Qed.

Ltac option_cases :=
  unfold FromRunFunctionConfig, FromResourcesConfig, OCISpec.WithCPULimit,
    OCISpec.WithMemoryLimit, OCISpec.WithHostNetwork;
  cbn; repeat (case_step; cbn).

Lemma FromRunFunctionConfig_namespaces
  (parseCPU parseMemory : string -> result Z) (cfg : option RunFunctionConfig)
  (s : OCISpec.Spec) :
  let r := FromRunFunctionConfig parseCPU parseMemory cfg s in
  (snd r = None ->
   OCISpec.Namespaces (fst r)
   = (if NetworkPolicy_pb_eqb (GetPolicy (GetNetwork cfg)) NETWORK_POLICY_RUNNER
      then OCISpec.Namespaces (fst (OCISpec.WithHostNetwork s))
      else OCISpec.Namespaces s)) /\
  (NetworkPolicy_pb_eqb (GetPolicy (GetNetwork cfg)) NETWORK_POLICY_RUNNER = false ->
   OCISpec.Namespaces (fst r) = OCISpec.Namespaces s).
Proof.
  option_cases; split; intros; congruence.
Qed.

Lemma FromResourcesConfig_namespaces
  (parseCPU parseMemory : string -> result Z) (cfg : Config.ResourcesConfig)
  (s : OCISpec.Spec) :
  let r := FromResourcesConfig parseCPU parseMemory (Some cfg) s in
  (snd r = None ->
   OCISpec.Namespaces (fst r)
   = (if String.eqb (Config.NetworkPolicy_ cfg) Config.NetworkPolicyRunner
      then OCISpec.Namespaces (fst (OCISpec.WithHostNetwork s))
      else OCISpec.Namespaces s)) /\
  (String.eqb (Config.NetworkPolicy_ cfg) Config.NetworkPolicyRunner = false ->
   OCISpec.Namespaces (fst r) = OCISpec.Namespaces s).
Proof.
  option_cases; split; intros; congruence.
Qed.

Lemma private_network_namespaces (s s' : OCISpec.Spec) :
  OCISpec.Namespaces s' = OCISpec.Namespaces s ->
  OCISpec.private_network s' = OCISpec.private_network s.
Proof.
  unfold OCISpec.private_network. intros ->. reflexivity.
Qed.


(** When the option returns no error (the CPU and memory
    limits, if any, were applied), the namespaces of the spec are those
    that [WithHostNetwork] leaves if the policy is Runner, and are
    untouched for any other policy; so a spec with a private network
    namespace loses it if and only if the policy is Runner.  Whether the
    option fails or not, a policy other than Runner leaves the namespaces
    as they were.  This holds for [FromRunFunctionConfig] and for
    [FromResourcesConfig]. *)
Lemma host_network_by_policy
  (parseCPU parseMemory : string -> result Z) (s : OCISpec.Spec) :
  (forall cfg s',
     FromRunFunctionConfig parseCPU parseMemory cfg s = (s', None) ->
     OCISpec.Namespaces s'
     = (if NetworkPolicy_pb_eqb (GetPolicy (GetNetwork cfg)) NETWORK_POLICY_RUNNER
        then OCISpec.Namespaces (fst (OCISpec.WithHostNetwork s))
        else OCISpec.Namespaces s) /\
     (OCISpec.private_network s = true ->
      (OCISpec.private_network s' = false <->
       GetPolicy (GetNetwork cfg) = NETWORK_POLICY_RUNNER))) /\
  (forall cfg,
     GetPolicy (GetNetwork cfg) <> NETWORK_POLICY_RUNNER ->
     OCISpec.Namespaces (fst (FromRunFunctionConfig parseCPU parseMemory cfg s))
     = OCISpec.Namespaces s) /\
  (forall cfg s',
     FromResourcesConfig parseCPU parseMemory (Some cfg) s = (s', None) ->
     OCISpec.Namespaces s'
     = (if String.eqb (Config.NetworkPolicy_ cfg) Config.NetworkPolicyRunner
        then OCISpec.Namespaces (fst (OCISpec.WithHostNetwork s))
        else OCISpec.Namespaces s) /\
     (OCISpec.private_network s = true ->
      (OCISpec.private_network s' = false <->
       Config.NetworkPolicy_ cfg = Config.NetworkPolicyRunner))) /\
  (forall cfg,
     Config.NetworkPolicy_ cfg <> Config.NetworkPolicyRunner ->
     OCISpec.Namespaces (fst (FromResourcesConfig parseCPU parseMemory (Some cfg) s))
     = OCISpec.Namespaces s) /\
  FromResourcesConfig parseCPU parseMemory None s = (s, None).
Proof.
  repeat split.
  - pose proof (proj1 (FromRunFunctionConfig_namespaces parseCPU parseMemory cfg s)) as E.
    cbn zeta in E. rewrite H in E. exact (E eq_refl).
  - pose proof (proj1 (FromRunFunctionConfig_namespaces parseCPU parseMemory cfg s)) as E.
    cbn zeta in E. rewrite H in E. specialize (E eq_refl). cbn [fst] in E.
    intros Hs'. apply NetworkPolicy_pb_eqb_spec.
    destruct (NetworkPolicy_pb_eqb _ _); [reflexivity|].
    rewrite (private_network_namespaces _ _ E) in Hs'. congruence.
  - intros Hp. apply NetworkPolicy_pb_eqb_spec in Hp.
    pose proof (proj1 (FromRunFunctionConfig_namespaces parseCPU parseMemory cfg s)) as E.
    cbn zeta in E. rewrite H in E. specialize (E eq_refl). cbn [fst] in E.
    rewrite Hp in E. rewrite (private_network_namespaces _ _ E).
    apply host_network_not_private.
  - intros cfg Hp. apply FromRunFunctionConfig_namespaces.
    destruct (NetworkPolicy_pb_eqb _ _) eqn:E; [|reflexivity].
    apply NetworkPolicy_pb_eqb_spec in E. contradiction.
  - pose proof (proj1 (FromResourcesConfig_namespaces parseCPU parseMemory cfg s)) as E.
    cbn zeta in E. rewrite H in E. exact (E eq_refl).
  - pose proof (proj1 (FromResourcesConfig_namespaces parseCPU parseMemory cfg s)) as E.
    cbn zeta in E. rewrite H in E. specialize (E eq_refl). cbn [fst] in E.
    intros Hs'. apply String.eqb_eq.
    destruct (String.eqb _ _); [reflexivity|].
    rewrite (private_network_namespaces _ _ E) in Hs'. congruence.
  - intros Hp. apply String.eqb_eq in Hp.
    pose proof (proj1 (FromResourcesConfig_namespaces parseCPU parseMemory cfg s)) as E.
    cbn zeta in E. rewrite H in E. specialize (E eq_refl). cbn [fst] in E.
    rewrite Hp in E. rewrite (private_network_namespaces _ _ E).
    apply host_network_not_private.
  - intros cfg Hp. apply FromResourcesConfig_namespaces.
    destruct (String.eqb _ _) eqn:E; [|reflexivity].
    apply String.eqb_eq in E. contradiction.
Qed.



(** ** Cleanup of the bundle *)

(** C1, in the function-runtime-oci generation: a run that returns the
    error of [protojson.Marshal] has created its bundle and never invoked
    [Cleanup] on it. *)
Theorem spark_marshal_error_skips_cleanup
  (w : World) (c : Spark.Command) (args : Config.Args) (e : error) :
  let out := call (Spark.Run w c args) in
  completion out = Returned (Some (Wrapped e Spark.errMarshalRequest)) ->
  bundle_created (trace out) = true /\ cleanups (trace out) = 0%nat.
Proof.
  intros out. subst out. run_cases.
  all: intros H; try discriminate H.
  all: split; reflexivity.
Qed.

Lemma spark_marshal_error_skips_cleanup_witness :
  let out := call (Spark.Run
                     (sample_world None (Err (errors_New "proto: invalid UTF-8"))
                        (sample_process (Exits 1000 0)) None)
                     (sample_spark_command 0) sample_args) in
  bundle_created (trace out) = true /\ cleanups (trace out) = 0%nat.
Proof.
  apply (spark_marshal_error_skips_cleanup
           (sample_world None (Err (errors_New "proto: invalid UTF-8"))
              (sample_process (Exits 1000 0)) None)
           (sample_spark_command 0) sample_args
           (errors_New "proto: invalid UTF-8")).
  reflexivity.
Defined.

(** X23.  In the xfn-oci generation every run that created its bundle returns,
    and has invoked [Cleanup] exactly once. *)
Lemma xfn_bundle_cleanup_once (w : World) (c : XfnSpark.Command) (registry defaultImage : string) :
  let out := call (XfnSpark.Run w c registry defaultImage) in
  bundle_created (trace out) = true ->
  (exists err, completion out = Returned err) /\ cleanups (trace out) = 1%nat.
Proof.
  intros out. subst out. run_cases.
  all: try discriminate.
  all: try no_block.
  all: try (exfalso; eapply fate_deadline_not_running; eassumption).
  all: intros _; split; [eexists; reflexivity | reflexivity].
Qed.


(** X24.  On every other path of the function-runtime-oci generation that
    returns after the bundle was created, [Cleanup] is invoked once. *)
Lemma spark_bundle_cleanup_once_otherwise
  (w : World) (c : Spark.Command) (args : Config.Args) (err : err_result) :
  let out := call (Spark.Run w c args) in
  bundle_created (trace out) = true ->
  completion out = Returned err ->
  (forall e, err <> Some (Wrapped e Spark.errMarshalRequest)) ->
  cleanups (trace out) = 1%nat.
Proof.
  intros out. subst out. run_cases.
  all: intros Hb Hc Hne; try discriminate; try reflexivity.
  all: injection Hc as <-; exfalso; eapply Hne; reflexivity.
Qed.

(** ** The deadline of the runtime process *)

(** C2, as stated, fails in the function-runtime-oci generation: the
    runtime is started under the background context, which has no
    deadline; a runtime that never exits is never killed and the run never
    returns. *)
Lemma spark_runs_without_deadline :
  let out := call (Spark.Run
                     (sample_world None (Ok []) (sample_process NeverExits) None)
                     (sample_spark_command 0) sample_args) in
  In (EvStart None) (trace out) /\
  (forall t, ~ In (EvStart (Some t)) (trace out)) /\
  ~ In EvKill (trace out) /\
  completion out = Blocked.
Proof.
  cbn. repeat split; try tauto.
  - intros t H. in_trace H.
  - intros H. in_trace H.
Qed.

(** C2, amended.  In the xfn-oci generation the runtime process is started
    under a deadline equal to the timeout of the request's run-function
    config, or to the default of 25 seconds when that timeout is zero or
    absent; a process that has not exited when the deadline expires is
    killed, and the run returns an error and writes no response.  In the
    function-runtime-oci generation the process is started without a
    deadline and is never killed by one. *)
Theorem runtime_deadline (w : World) :
  (forall (c : XfnSpark.Command) (registry defaultImage : string) (d : option Z),
     let out := call (XfnSpark.Run w c registry defaultImage) in
     In (EvStart d) (trace out) ->
     (exists pb req input confJSON conf,
        io_ReadAll (stdin w) = Some (pb, None) /\
        proto_Unmarshal w pb = Ok req /\
        Input req = Some input /\
        Struct_MarshalJSON w input = Ok confJSON /\
        json_Unmarshal_config w confJSON = Ok conf /\
        d = Some (let t := AsDuration (GetTimeout (GetRunFunctionConfig
                                                     (Container.Spec conf))) in
                  if t =? 0 then XfnSpark.defaultTimeout else t)) /\
     (forall t, d = Some t ->
        match behaviour (process w) with
        | Exits after _ => t <= after
        | NeverExits => True
        end ->
        In EvKill (trace out) /\
        (exists e, completion out = Returned (Some e)) /\
        written (trace out) = [])) /\
  (forall (c : Spark.Command) (args : Config.Args) (d : option Z),
     let out := call (Spark.Run w c args) in
     In (EvStart d) (trace out) ->
     d = None /\ ~ In EvKill (trace out)).
Proof.
  split.
  - intros c registry defaultImage d out; subst out; run_cases.
    all: intros Hin; in_trace Hin.
    all: injection Hin as <-.
    all: (split;
          [ do 5 eexists; repeat split; try eassumption; cbn;
            repeat match goal with H : (_ =? 0) = _ |- _ => rewrite H end; reflexivity
          | intros t [= <-] Hb ]).
    all: try no_block.
    all: try (exfalso; eapply fate_deadline_not_running; eassumption).
    all: try (exfalso; eapply fate_expired; eassumption).
    all: cbn; repeat split; eauto.
  - intros c args d out; subst out; run_cases.
    all: intros Hin; in_trace Hin.
    all: injection Hin as <-.
    all: try (exfalso; eapply fate_background_not_killed; eassumption).
    all: split; [reflexivity | intros Hk; in_trace Hk].
Qed.

Lemma runtime_deadline_witness :
  let out := call (XfnSpark.Run
                     (sample_world (Some 5) (Ok []) (sample_process (Exits 1000 0)) None)
                     (sample_xfn_command 0) "index.docker.io" "") in
  In EvKill (trace out) /\
  (exists e, completion out = Returned (Some e)) /\
  written (trace out) = [].
Proof.
  assert (Hin : In (EvStart (Some 5))
     (trace (call (XfnSpark.Run
                     (sample_world (Some 5) (Ok []) (sample_process (Exits 1000 0)) None)
                     (sample_xfn_command 0) "index.docker.io" "")))) by (cbn; tauto).
  apply (proj2 (proj1 (runtime_deadline
                  (sample_world (Some 5) (Ok []) (sample_process (Exits 1000 0)) None))
                  (sample_xfn_command 0) "index.docker.io" "" (Some 5) Hin)
               5 eq_refl).
  cbn. lia.
Defined.

(** ** Errors of a run *)



(** ** The response *)

(** C4, as stated, fails: the runtime exits with status zero after writing
    its response, [Cleanup] fails, and the run writes nothing to its
    standard output. *)
Lemma exit_zero_without_response :
  let w := sample_world None (Ok []) (sample_process (Exits 1000 0))
             (Some (errors_New "device or resource busy")) in
  let out := call (XfnSpark.Run w (sample_xfn_command 0) "index.docker.io" "") in
  In (EvWait (Exited 0)) (trace out) /\
  written (trace out) <> [proc_stdout (process w)].
Proof.
  cbn. split; [tauto | discriminate].
Qed.

(** C4, amended.  When [cmd.Wait] collects exit status zero (and waiting
    met no I/O fault) and [Cleanup] succeeds, the run writes to its
    standard output, in one write, exactly the bytes read from the
    standard output of the process: all of them when [MaxStdioBytes] is 0,
    otherwise those that the limit lets through.  When [Cleanup] fails the
    run writes nothing and returns the cleanup error. *)
Theorem exit_zero_delivers_stdout (w : World) :
  wait_fault (process w) = None ->
  (forall (c : XfnSpark.Command) (registry defaultImage : string),
     let out := call (XfnSpark.Run w c registry defaultImage) in
     let stdout := captured (XfnSpark.MaxStdioBytes c) (proc_stdout (process w)) in
     In (EvWait (Exited 0)) (trace out) ->
     match bundle_Cleanup w with
     | None =>
         written (trace out) = [stdout] /\
         completion out
         = Returned (errors_Wrap (os_Stdout_Write w stdout) XfnSpark.errWriteResponse)
     | Some err =>
         written (trace out) = [] /\
         completion out = Returned (Some (Wrapped err XfnSpark.errCleanupBundle))
     end) /\
  (forall (c : Spark.Command) (args : Config.Args),
     let out := call (Spark.Run w c args) in
     let stdout := captured (Spark.MaxStdioBytes c) (proc_stdout (process w)) in
     In (EvWait (Exited 0)) (trace out) ->
     match bundle_Cleanup w with
     | None =>
         written (trace out) = [stdout] /\
         completion out
         = Returned (errors_Wrap (os_Stdout_Write w stdout) Spark.errWriteResponse)
     | Some err =>
         written (trace out) = [] /\
         completion out = Returned (Some (Wrapped err Spark.errCleanupBundle))
     end).
Proof.
  intros Hw.
  split; [intros c registry defaultImage out stdout | intros c args out stdout];
    subst out stdout; run_cases.
  all: intros Hin; in_trace Hin.
  all: try congruence.
  all: read_captured.
  all: try (injection Hin as ->; discriminate).
  all: split; try reflexivity.
  all: congruence.
Qed.

Lemma exit_zero_delivers_stdout_witness :
  written (trace (call (XfnSpark.Run
                          (sample_world None (Ok []) (sample_process (Exits 1000 0)) None)
                          (sample_xfn_command 4) "index.docker.io" "")))
  = [list_byte_of_string "resp"].
Proof.
  apply (proj1 (exit_zero_delivers_stdout
                  (sample_world None (Ok []) (sample_process (Exits 1000 0)) None)
                  eq_refl)
               (sample_xfn_command 4) "index.docker.io" "").
  cbn. tauto.
Defined.

(** ** Copying the image tarball in chunks *)

Lemma Writer_Write_taken (dst : Writer) (p : bytes) :
  let '(dst', n, err) := Writer_Write dst p in
  0 <= n <= Z.of_nat (List.length p) /\
  content dst' = content dst ++ firstn (Z.to_nat n) p /\
  (err = None <-> n = Z.of_nat (List.length p)).
Proof.
  unfold Writer_Write. destruct (room dst) as [[k e]|]; cbn.
  - destruct (Nat.leb_spec (List.length p) k); cbn.
    + rewrite Nat2Z.id, firstn_all. split; [lia | split; [reflexivity | tauto]].
    + rewrite Nat2Z.id. split; [lia | split; [reflexivity |]].
      split; [discriminate | lia].
  - rewrite Nat2Z.id, firstn_all. split; [lia | split; [reflexivity | tauto]].
Qed.

Lemma Writer_Write_app (dst : Writer) (a b : bytes) (dst1 : Writer) (n : Z) :
  Writer_Write dst a = (dst1, n, None) ->
  Writer_Write dst (a ++ b)
  = (let '(dst2, m, err) := Writer_Write dst1 b in (dst2, n + m, err)).
Proof.
  unfold Writer_Write. destruct (room dst) as [[k e]|]; cbn.
  - destruct (Nat.leb_spec (List.length a) k); [| discriminate].
    intros [= <- <-]. cbn. rewrite length_app, <- app_assoc, Nat2Z.inj_add.
    destruct (Nat.leb_spec (List.length b) (k - List.length a));
      destruct (Nat.leb_spec (List.length a + List.length b) k); try lia.
    + replace (k - (List.length a + List.length b))%nat
        with (k - List.length a - List.length b)%nat by lia.
      reflexivity.
    + rewrite firstn_app, (firstn_all2 a) by lia.
      rewrite <- app_assoc, Nat2Z.inj_sub by lia.
      replace (Z.of_nat (List.length a) + (Z.of_nat k - Z.of_nat (List.length a)))
        with (Z.of_nat k) by lia.
      reflexivity.
  - intros [= <- <-]. cbn. rewrite length_app, <- app_assoc, Nat2Z.inj_add.
    reflexivity.
Qed.

Lemma Writer_Write_short (dst : Writer) (p : bytes) (c : nat) (dst1 : Writer)
      (n : Z) (e : error) :
  Writer_Write dst (firstn c p) = (dst1, n, Some e) ->
  Writer_Write dst p = (dst1, n, Some e).
Proof.
  unfold Writer_Write. destruct (room dst) as [[k e']|]; [| discriminate].
  destruct (Nat.leb_spec (List.length (firstn c p)) k); [discriminate |].
  intros [= <- <- <-].
  rewrite length_firstn in H.
  destruct (Nat.leb_spec (List.length p) k); [lia |].
  rewrite firstn_firstn. replace (Nat.min k c) with k by lia. reflexivity.
Qed.

Lemma copyChunks_loop_Copy (chunkSize : Z) :
  0 < chunkSize ->
  forall (fuel : nat) (dst : Writer) (src : Reader) (written : Z),
    (List.length (data src) < fuel)%nat ->
    copyChunks_loop fuel dst src chunkSize written = copied written (io_Copy dst src).
Proof.
  intros Hc. induction fuel as [|fuel IH]; intros dst src written Hfuel; [lia |].
  cbn [copyChunks_loop]. unfold io_CopyN, io_LimitReader.
  destruct (Z.leb_spec chunkSize 0) as [|_]; [lia |].
  destruct (Z.leb_spec chunkSize (Z.of_nat (List.length (data src)))) as [Hle | Hgt].
  - (* a full chunk *)
    unfold io_Copy at 1. cbn [data ending].
    destruct (Writer_Write dst (firstn (Z.to_nat chunkSize) (data src)))
      as [[dst1 n] [e|]] eqn:Ew.
    + pose proof (Writer_Write_taken dst (firstn (Z.to_nat chunkSize) (data src))) as T.
      rewrite Ew in T. destruct T as (Hn & _ & Hne).
      rewrite length_firstn in Hn, Hne.
      apply Writer_Write_short in Ew.
      destruct (Z.eqb_spec n chunkSize) as [E|_].
      { assert (Some e = None) by (apply Hne; lia). discriminate. }
      unfold io_Copy. rewrite Ew. reflexivity.
    + pose proof (Writer_Write_taken dst (firstn (Z.to_nat chunkSize) (data src))) as T.
      rewrite Ew in T. destruct T as (_ & _ & Hn).
      apply proj1 in Hn. specialize (Hn eq_refl).
      rewrite length_firstn in Hn.
      assert (n = chunkSize) as -> by lia.
      rewrite Z.eqb_refl.
      rewrite IH by (cbn [data]; rewrite length_skipn; lia).
      unfold io_Copy. cbn [data ending].
      rewrite <- (firstn_skipn (Z.to_nat chunkSize) (data src)) at 2.
      rewrite (Writer_Write_app _ _ _ _ _ Ew).
      destruct (Writer_Write dst1 (skipn (Z.to_nat chunkSize) (data src)))
        as [[dst2 m] [e|]]; cbn.
      * rewrite Z.add_assoc. reflexivity.
      * destruct (ending src); cbn; rewrite ?Z.add_assoc; reflexivity.
  - (* the last, short chunk *)
    unfold io_Copy.
    pose proof (Writer_Write_taken dst (data src)) as T.
    destruct (Writer_Write dst (data src)) as [[dst1 n] [e|]].
    + destruct T as (Hn & _ & _).
      destruct (Z.eqb_spec n chunkSize); [lia |]. reflexivity.
    + destruct T as (Hn & _ & _).
      destruct (ending src); cbn; [| | reflexivity].
      * destruct (Z.eqb_spec n chunkSize); [lia |].
        destruct (Z.ltb_spec n chunkSize); [| lia]. reflexivity.
      * destruct (Z.eqb_spec n chunkSize); [lia |]. reflexivity.
Qed.

Lemma copyChunks_loop_more_fuel (chunkSize : Z) (fuel fuel' : nat) :
  (fuel <= fuel')%nat ->
  forall (dst : Writer) (src : Reader) (written : Z) r,
    copyChunks_loop fuel dst src chunkSize written = Some r ->
    copyChunks_loop fuel' dst src chunkSize written = Some r.
Proof.
  intros Hle. revert fuel' Hle.
  induction fuel as [|fuel IH]; intros fuel' Hle dst src written r; [discriminate |].
  destruct fuel' as [|fuel']; [lia |].
  cbn [copyChunks_loop].
  destruct (io_CopyN dst src chunkSize) as [[[[dst1 src1] w] [[|e]|]]|]; auto.
  apply IH. lia.
Qed.

(** X1.  With a positive chunk size and fuel for one iteration per byte and
    one more, [copyChunks] does what a single [io.Copy] does, whatever the
    chunk size: same bytes written, same destination, the same error, and it
    blocks when the copy does. *)
Theorem copyChunks_as_Copy (fuel : nat) (dst : Writer) (src : Reader) (chunkSize : Z) :
  0 < chunkSize ->
  (List.length (data src) < fuel)%nat ->
  copyChunks fuel dst src chunkSize = copied 0 (io_Copy dst src).
Proof.
  intros Hc Hf. apply copyChunks_loop_Copy; assumption.
Qed.

Lemma copyChunks_as_Copy_witness :
  copyChunks 7 (mkWriter [] (Some (4%nat, errors_New "no space left on device")))
    (mkReader (list_byte_of_string "layers") EOF) 4
  = Some (4, Some (errors_New "no space left on device"),
          mkWriter (list_byte_of_string "laye")
                   (Some (0%nat, errors_New "no space left on device"))).
Proof.
  rewrite (copyChunks_as_Copy 7
             (mkWriter [] (Some (4%nat, errors_New "no space left on device")))
             (mkReader (list_byte_of_string "layers") EOF) 4);
    [reflexivity | lia | cbn; lia].
Defined.

(** X2.  A copy with a positive chunk size from a source that ends with EOF
    into a writer that never fails is lossless: the destination receives
    the data of the source, byte for byte after what it held, and the count
    returned is the length of the data with a nil error. *)
Theorem copyChunks_lossless (fuel : nat) (dst : Writer) (src : Reader) (chunkSize : Z) :
  0 < chunkSize ->
  (List.length (data src) < fuel)%nat ->
  ending src = EOF ->
  room dst = None ->
  copyChunks fuel dst src chunkSize
  = Some (Z.of_nat (List.length (data src)), None,
          mkWriter (content dst ++ data src) None).
Proof.
  intros Hc Hf He Hr. unfold copyChunks. rewrite copyChunks_loop_Copy by assumption.
  unfold io_Copy, Writer_Write. rewrite Hr, He. reflexivity.
Qed.

Lemma copyChunks_lossless_witness :
  copyChunks 8 (mkWriter [] None) (mkReader (list_byte_of_string "tarball") EOF) 3
  = Some (7, None, mkWriter (list_byte_of_string "tarball") None).
Proof.
  apply (copyChunks_lossless 8 (mkWriter [] None)
           (mkReader (list_byte_of_string "tarball") EOF) 3);
    [lia | cbn; lia | reflexivity | reflexivity].
Defined.

Lemma copyChunks_returns_prefix (fuel : nat) (dst dst' : Writer) (src : Reader)
        (chunkSize written : Z) (err : err_result) :
  0 < chunkSize ->
  copyChunks fuel dst src chunkSize = Some (written, err, dst') ->
  0 <= written <= Z.of_nat (List.length (data src)) /\
  content dst' = content dst ++ firstn (Z.to_nat written) (data src) /\
  (err = None ->
   written = Z.of_nat (List.length (data src)) /\ ending src = EOF).
Proof.
  intros Hc H.
  apply (copyChunks_loop_more_fuel chunkSize fuel
           (Nat.max fuel (S (List.length (data src))))) in H; [| lia].
  unfold copyChunks in *. rewrite copyChunks_loop_Copy in H by lia.
  unfold io_Copy in H.
  pose proof (Writer_Write_taken dst (data src)) as T.
  destruct (Writer_Write dst (data src)) as [[dst1 n] [e|]].
  - injection H as <- <- <-. destruct T as (Hn & Hcont & _).
    rewrite ?Z.add_0_l. split; [lia | split; [exact Hcont | discriminate]].
  - destruct T as (Hn & Hcont & Hall). apply proj1 in Hall. specialize (Hall eq_refl).
    destruct (ending src); cbn in H; [| | discriminate];
      injection H as <- <- <-; rewrite ?Z.add_0_l;
      (split; [lia | split; [exact Hcont |]]).
    + intros _. split; [exact Hall | reflexivity].
    + discriminate.
Qed.

(** X3.  Whenever [copyChunks] returns, with a positive chunk size, the
    count it returns is the number of bytes the destination received, and
    these are the first bytes of the source in order; a nil error means
    that the whole source was copied and that it ended with EOF. *)
Theorem copyChunks_accounts (fuel : nat) (dst dst' : Writer) (src : Reader)
        (chunkSize written : Z) (err : err_result) :
  0 < chunkSize ->
  copyChunks fuel dst src chunkSize = Some (written, err, dst') ->
  0 <= written <= Z.of_nat (List.length (data src)) /\
  content dst' = content dst ++ firstn (Z.to_nat written) (data src) /\
  (err = None ->
   written = Z.of_nat (List.length (data src)) /\ ending src = EOF).
Proof.
  apply copyChunks_returns_prefix.
Qed.

Lemma copyChunks_accounts_witness :
  content (mkWriter (list_byte_of_string "laye")
                    (Some (0%nat, errors_New "no space left on device")))
  = content (mkWriter [] (Some (4%nat, errors_New "no space left on device")))
    ++ firstn (Z.to_nat 4) (list_byte_of_string "layers").
Proof.
  exact (proj1 (proj2 (copyChunks_accounts 7
           (mkWriter [] (Some (4%nat, errors_New "no space left on device")))
           (mkWriter (list_byte_of_string "laye")
                     (Some (0%nat, errors_New "no space left on device")))
           (mkReader (list_byte_of_string "layers") EOF) 4 4
           (Some (errors_New "no space left on device"))
           ltac:(lia) eq_refl))).
Defined.

Lemma io_CopyN_nonpositive (dst : Writer) (src : Reader) (n : Z) :
  n <= 0 ->
  exists dst' src' w,
    io_CopyN dst src n = Some (dst', src', w, None).
Proof.
  intros Hn. unfold io_CopyN, io_LimitReader, io_Copy, Writer_Write.
  destruct n as [|p|p]; [| lia |]; destruct (room dst) as [[k e]|]; cbn;
    do 3 eexists; reflexivity.
Qed.

(** X4.  With a chunk size of zero or less [copyChunks] never returns: every
    [io.CopyN] copies nothing and reports no error, so the loop goes on,
    whatever the source and the destination. *)
Theorem copyChunks_nonpositive_never_returns (chunkSize : Z) :
  chunkSize <= 0 ->
  forall (fuel : nat) (dst : Writer) (src : Reader),
    copyChunks fuel dst src chunkSize = None.
Proof.
  intros Hc fuel. unfold copyChunks. generalize 0 as written.
  induction fuel as [|fuel IH]; intros written dst src; [reflexivity |].
  cbn [copyChunks_loop].
  destruct (io_CopyN_nonpositive dst src chunkSize Hc) as (dst' & src' & w & ->).
  apply IH.
Qed.

Lemma copyChunks_nonpositive_never_returns_witness :
  copyChunks 1000 (mkWriter [] None) (mkReader (list_byte_of_string "tarball") EOF) 0
  = None.
Proof.
  apply (copyChunks_nonpositive_never_returns 0); lia.
Defined.

(** ** The run command of xfn-oci *)

(** X5.  A request that decodes but has no input makes the run command
    panic on a nil pointer: the config stays nil and its [Spec] is read.
    Nothing has been run or written by then. *)
Theorem run_without_input_panics
  (env : XfnRunCmd.Env) (c : XfnRun.Command) (h : Host)
  (registry defaultImage ref : string) (req : RunFunctionRequest) :
  XfnRunCmd.name_ParseReference env defaultImage registry = Ok ref ->
  XfnRunCmd.json_Unmarshal env (XfnRun.Input_ c) = Ok req ->
  Input req = None ->
  XfnRunCmd.Run env c h registry defaultImage = (XfnRunCmd.Panicked, []).
Proof.
  intros Hp Hu Hi. unfold XfnRunCmd.Run. rewrite Hp, Hu. cbn. rewrite Hi. reflexivity.
Qed.

Lemma run_without_input_panics_witness :
  XfnRunCmd.Run (sample_run_env None None (sample_auth "user"))
    (sample_run_command 30000000000 "IfNotPresent" "Isolated")
    (sample_host false false) "index.docker.io" "example.com/fn:v1"
  = (XfnRunCmd.Panicked, []).
Proof.
  apply (run_without_input_panics _ _ _ _ _ "example.com/fn:v1"
           (mkRunFunctionRequest None [])); reflexivity.
Defined.

(** X6.  The flags [Timeout], [ImagePullPolicy] and [NetworkPolicy] of the
    run command have no effect: two commands that differ only in them end
    alike, with the same effects. *)
Theorem run_ignores_timeout_and_policies
  (env : XfnRunCmd.Env) (h : Host) (registry defaultImage : string)
  (cache : string) (uid gid : Z) (input : bytes)
  (timeout timeout' : Z) (pull pull' network network' : string) :
  XfnRunCmd.Run env (XfnRun.mkCommand cache timeout pull network uid gid input)
    h registry defaultImage
  = XfnRunCmd.Run env (XfnRun.mkCommand cache timeout' pull' network' uid gid input)
      h registry defaultImage.
Proof.
  reflexivity.
Qed.

(** X7.  The keychain is consulted only for a request whose config carries
    no credentials: when the decoded config has an [Auth], no [Resolve]
    happens, and the function is run. *)
Theorem run_keeps_request_credentials
  (env : XfnRunCmd.Env) (c : XfnRun.Command) (h : Host)
  (registry defaultImage ref : string) (req : RunFunctionRequest)
  (cfg : Container.RunFunctionRequestConfig) (pull : ImagePullConfig)
  (a : ImagePullAuth) :
  XfnRunCmd.name_ParseReference env defaultImage registry = Ok ref ->
  XfnRunCmd.json_Unmarshal env (XfnRun.Input_ c) = Ok req ->
  Input req <> None ->
  Container.ConfigFromRequest (XfnRunCmd.MarshalJSON env)
    (XfnRunCmd.json_Unmarshal_config env) (Some req) = (Some cfg, None) ->
  ImagePullConfig_ (Container.Spec cfg) = Some pull ->
  PullAuth pull = Some a ->
  let tr := snd (XfnRunCmd.Run env c h registry defaultImage) in
  (forall r, ~ In (XfnRunCmd.Resolved r) tr) /\
  In (XfnRunCmd.Ran (XfnRun.Run_runner (XfnRunCmd.filepath_Clean env) c h registry) req) tr.
Proof.
  intros Hp Hu Hi Hc Hpull Ha tr. subst tr.
  unfold XfnRunCmd.Run. rewrite Hp, Hu. cbn [GetInput].
  destruct (Input req) as [i|]; [| contradiction].
  rewrite Hc, Hpull, Ha. unfold XfnRunCmd.run_function.
  destruct (XfnRunCmd.RunFunction env _ req); cbn; split; try tauto;
    intros r H; in_trace H.
Qed.

Lemma run_keeps_request_credentials_witness :
  In (XfnRunCmd.Ran
        (XfnRun.Run_runner (fun d => d)
           (sample_run_command 30000000000 "IfNotPresent" "Isolated")
           (sample_host false false) "index.docker.io")
        (mkRunFunctionRequest (Some (mkStruct [])) []))
     (snd (XfnRunCmd.Run
             (sample_run_env (Some (mkStruct [])) (Some (sample_auth "user"))
                (sample_auth "keychain"))
             (sample_run_command 30000000000 "IfNotPresent" "Isolated")
             (sample_host false false) "index.docker.io" "example.com/fn:v1")).
Proof.
  refine (proj2 (run_keeps_request_credentials
           (sample_run_env (Some (mkStruct [])) (Some (sample_auth "user"))
              (sample_auth "keychain"))
           (sample_run_command 30000000000 "IfNotPresent" "Isolated")
           (sample_host false false) "index.docker.io" "example.com/fn:v1"
           "example.com/fn:v1" (mkRunFunctionRequest (Some (mkStruct [])) [])
           _ _ (sample_auth "user") eq_refl eq_refl _ eq_refl eq_refl eq_refl)).
  discriminate.
Defined.

(** X8.  The credentials that the keychain yields never reach the runner:
    the request that is run is the request decoded from the command's
    input, on the runner that the command built, and with the keychain
    answering two different credentials the command ends alike, with the
    same effects. *)
Theorem run_drops_keychain_credentials
  (env : XfnRunCmd.Env) (c : XfnRun.Command) (h : Host)
  (registry defaultImage : string) (a a' : ImagePullAuth) :
  XfnRunCmd.Run (XfnRunCmd.set_Authorization env (fun _ => Ok a)) c h registry defaultImage
  = XfnRunCmd.Run (XfnRunCmd.set_Authorization env (fun _ => Ok a')) c h registry
      defaultImage /\
  (forall f req,
     In (XfnRunCmd.Ran f req) (snd (XfnRunCmd.Run env c h registry defaultImage)) ->
     XfnRunCmd.json_Unmarshal env (XfnRun.Input_ c) = Ok req /\
     f = XfnRun.Run_runner (XfnRunCmd.filepath_Clean env) c h registry).
Proof.
  unfold XfnRunCmd.Run, XfnRunCmd.run_function, XfnRunCmd.set_Authorization.
  cbn [XfnRunCmd.name_ParseReference XfnRunCmd.json_Unmarshal XfnRunCmd.MarshalJSON
       XfnRunCmd.json_Unmarshal_config XfnRunCmd.Keychain_Resolve
       XfnRunCmd.Authorization XfnRunCmd.RunFunction XfnRunCmd.Stdout_WriteString
       XfnRunCmd.filepath_Clean GetInput].
  destruct (XfnRunCmd.name_ParseReference env defaultImage registry);
    [| split; [reflexivity | intros ? ? []]].
  destruct (XfnRunCmd.json_Unmarshal env (XfnRun.Input_ c)) as [req|];
    [| split; [reflexivity | intros ? ? H; in_trace H]].
  destruct (Input req).
  - destruct (Container.ConfigFromRequest _ _ (Some req))
      as [[cfg|] [e|]]; try (split; [reflexivity | intros ? ? []]).
    destruct (PullAuth _).
    + destruct (XfnRunCmd.RunFunction env _ req); split; try reflexivity;
        intros f q H; in_trace H; injection H as <- <-; auto.
    + destruct (XfnRunCmd.Keychain_Resolve env v) as [auth|];
        [| split; [reflexivity | intros ? ? H; in_trace H]].
      destruct (XfnRunCmd.RunFunction env _ req); split.
      * reflexivity.
      * destruct (XfnRunCmd.Authorization env auth);
          intros f q H; in_trace H; injection H as <- <-; auto.
      * reflexivity.
      * destruct (XfnRunCmd.Authorization env auth);
          intros f q H; in_trace H; injection H as <- <-; auto.
  - split; [reflexivity | intros ? ? []].
Qed.

Lemma run_drops_keychain_credentials_witness :
  XfnRunCmd.json_Unmarshal
    (sample_run_env (Some (mkStruct [])) None (sample_auth "keychain"))
    (XfnRun.Input_ (sample_run_command 30000000000 "IfNotPresent" "Isolated"))
  = Ok (mkRunFunctionRequest (Some (mkStruct [])) []).
Proof.
  refine (proj1 (proj2 (run_drops_keychain_credentials
           (sample_run_env (Some (mkStruct [])) None (sample_auth "keychain"))
           (sample_run_command 30000000000 "IfNotPresent" "Isolated")
           (sample_host false false) "index.docker.io" "example.com/fn:v1"
           (sample_auth "keychain") (sample_auth "other"))
           (XfnRun.Run_runner (fun d => d)
              (sample_run_command 30000000000 "IfNotPresent" "Isolated")
              (sample_host false false) "index.docker.io")
           (mkRunFunctionRequest (Some (mkStruct [])) []) _)).
  cbn. tauto.
Defined.

(** ** The start command of function-runtime-oci *)

(** X9.  The start command closes the image tarball exactly once before it
    returns, on every return path after the tarball was opened, and not at
    all when opening failed or while the command never returns; it closes
    no other file: the destination it created stays open. *)
Theorem start_closes_tarball_once
  (env : OCIStartCmd.Env) (c : OCIStart.Command) (args : Config.Args) (h : Host) :
  let out := OCIStartCmd.Run env c args h in
  closes (Config.ImageTarBall args) (snd out)
  = match fst out, OCIStartCmd.os_Open env (Config.ImageTarBall args) with
    | OCIStartCmd.Finished _, Ok _ => 1%nat
    | _, _ => 0%nat
    end /\
  (forall p, In (OCIStartCmd.Closed p) (snd out) -> p = Config.ImageTarBall args).
Proof.
  unfold OCIStartCmd.Run, closes.
  destruct (OCIStartCmd.os_Open env _) as [compressed|]; [| split; [reflexivity | intros ? []]].
  destruct (OCIStartCmd.os_Create env _) as [dst|];
    [| cbn; rewrite String.eqb_refl; split; [reflexivity |];
       intros p H; in_trace H; congruence].
  destruct (OCIStartCmd.gzip_NewReader env _) as [src|];
    [| cbn; rewrite String.eqb_refl; split; [reflexivity |];
       intros p H; in_trace H; congruence].
  destruct (copyChunks _ dst src _) as [[[written [e|]] dst']|];
    [ cbn; rewrite String.eqb_refl; split; [reflexivity |];
      intros p H; in_trace H; congruence
    | | cbn; split; [reflexivity | intros p H; in_trace H] ].
  destruct (OCIStartCmd.ListenAndServe env _ _ _);
    cbn; rewrite ?String.eqb_refl; (split; [reflexivity |]);
    intros p H; in_trace H; congruence.
Qed.

(** X10.  The start command listens only once the image is decompressed
    in full: when it starts to listen, the tarball was opened, the
    destination was created at the join of the cache directory and the
    tarball's name, the decompressed stream ended with EOF, and the
    destination holds every byte of it after what it held; the runner that
    listens is the one built for that destination. *)
Theorem start_listens_after_full_copy
  (env : OCIStartCmd.Env) (c : OCIStart.Command) (args : Config.Args) (h : Host)
  (f : ContainerOCI.Runner) (network address : string) :
  In (OCIStartCmd.Listened f network address) (snd (OCIStartCmd.Run env c args h)) ->
  let path := OCIStartCmd.filepath_Join env (OCIStart.CacheDir c)
                (Config.ImageTarBall args) in
  exists compressed dst src dst',
    OCIStartCmd.os_Open env (Config.ImageTarBall args) = Ok compressed /\
    OCIStartCmd.os_Create env path = Ok dst /\
    OCIStartCmd.gzip_NewReader env compressed = Ok src /\
    ending src = EOF /\
    In (OCIStartCmd.Copied (Z.of_nat (List.length (data src))) dst')
       (snd (OCIStartCmd.Run env c args h)) /\
    content dst' = content dst ++ data src /\
    f = OCIStart.Run_runner (OCIStartCmd.WithImageTarBall env) c h path /\
    network = OCIStart.Network_ c /\ address = OCIStart.Address c.
Proof.
  unfold OCIStartCmd.Run.
  destruct (OCIStartCmd.os_Open env _) as [compressed|]; [| intros []].
  destruct (OCIStartCmd.os_Create env _) as [dst|]; [| intros H; in_trace H].
  destruct (OCIStartCmd.gzip_NewReader env _) as [src|] eqn:Eg; [| intros H; in_trace H].
  destruct (copyChunks _ dst src _) as [[[written [e|]] dst']|] eqn:Ecopy;
    [intros H; in_trace H | | intros H; in_trace H].
  apply copyChunks_returns_prefix in Ecopy; [| lia].
  destruct Ecopy as (_ & Hcont & Hall). destruct (Hall eq_refl) as [-> Heof].
  rewrite Nat2Z.id, firstn_all in Hcont.
  intros H; try (intros path; subst path).
  exists compressed, dst, src, dst'.
  destruct (OCIStartCmd.ListenAndServe env _ _ _); in_trace H;
    injection H as <- <- <-; repeat split; cbn; auto.
Qed.

Lemma start_listens_after_full_copy_witness :
  exists dst',
    In (OCIStartCmd.Copied 6 dst')
       (snd (OCIStartCmd.Run (sample_start_env EOF None) sample_start_command
               sample_args (sample_host true true))) /\
    content dst' = list_byte_of_string "layers".
Proof.
  destruct (start_listens_after_full_copy (sample_start_env EOF None)
              sample_start_command sample_args (sample_host true true)
              (OCIStart.Run_runner (fun p r => ContainerOCI.WithCacheDir p r)
                 sample_start_command (sample_host true true)
                 "/function-runtime-oci-cache//function.tar")
              "tcp" "0.0.0.0:1234")
    as (compressed & dst & src & dst' & Ho & Hc & Hg & _ & Hin & Hcont & _).
  - cbn. tauto.
  - injection Hc as <-. injection Ho as <-. injection Hg as <-.
    exists dst'. split; [exact Hin | exact Hcont].
Defined.

(** ** More on the runs of spark *)

(** X11.  A run returns nil only after the whole pipeline: one probe, one bundle,
    one start of the runtime, exit status zero, one successful [Cleanup] and
    one write of the captured standard output, in this order and nothing
    else. *)
Theorem nil_result_means_full_pipeline (w : World) :
  (forall (c : XfnSpark.Command) (registry defaultImage : string),
     let out := call (XfnSpark.Run w c registry defaultImage) in
     completion out = Returned None ->
     exists k d,
       trace out
       = [EvSupported (XfnSpark.CacheDir c); EvBundle k true; EvStart (Some d);
          EvWait (Exited 0); EvCleanup;
          EvWrite (captured (XfnSpark.MaxStdioBytes c) (proc_stdout (process w)))] /\
       bundle_Cleanup w = None) /\
  (forall (c : Spark.Command) (args : Config.Args),
     let out := call (Spark.Run w c args) in
     completion out = Returned None ->
     exists k,
       trace out
       = [EvSupported (Spark.CacheDir c); EvBundle k true; EvStart None;
          EvWait (Exited 0); EvCleanup;
          EvWrite (captured (Spark.MaxStdioBytes c) (proc_stdout (process w)))] /\
       bundle_Cleanup w = None).
Proof.
  split; [intros c registry defaultImage out | intros c args out]; subst out; run_cases.
  all: intros H; try discriminate H.
  all: read_captured.
  all: repeat match goal with
         | H : (_ =? 0) = true |- _ => apply Z.eqb_eq in H; subst
         end.
  all: repeat eexists; try reflexivity; try assumption.
Qed.

Lemma nil_result_means_full_pipeline_witness :
  exists k,
    trace (call (Spark.Run
                   (sample_world None (Ok []) (sample_process (Exits 1000 0)) None)
                   (sample_spark_command 4) sample_args))
    = [EvSupported "/function-runtime-oci-cache"; EvBundle k true; EvStart None;
       EvWait (Exited 0); EvCleanup; EvWrite (list_byte_of_string "resp")] /\
    bundle_Cleanup (sample_world None (Ok []) (sample_process (Exits 1000 0)) None) = None.
Proof.
  exact (proj2 (nil_result_means_full_pipeline
                  (sample_world None (Ok []) (sample_process (Exits 1000 0)) None))
               (sample_spark_command 4) sample_args eq_refl).
Defined.

(** X12.  The xfn-oci run returns whenever its standard input can be read to the
    end: the deadline leaves no step that could block.  The
    function-runtime-oci run can block beyond that only on a runtime that
    it started and that never exits. *)
Theorem run_blocks_only_on_stdin_or_runtime (w : World) :
  (forall (c : XfnSpark.Command) (registry defaultImage : string),
     io_ReadAll (stdin w) <> None ->
     exists err, completion (call (XfnSpark.Run w c registry defaultImage)) = Returned err) /\
  (forall (c : Spark.Command) (args : Config.Args),
     let out := call (Spark.Run w c args) in
     completion out = Blocked ->
     io_ReadAll (stdin w) = None \/
     (behaviour (process w) = NeverExits /\ In (EvStart None) (trace out))).
Proof.
  split; [intros c registry defaultImage Hin | intros c args out; subst out]; run_cases.
  all: try contradiction.
  all: try no_block.
  all: try (exfalso; eapply fate_deadline_not_running; eassumption).
  all: try (eexists; reflexivity).
  all: intros H; try discriminate H.
  all: try (left; reflexivity).
  all: right; split; [| cbn; tauto].
  all: repeat match goal with
         | H : io_ReadAll (limitReaderIfNonZero (pipe _ _ _) _) = None |- _ =>
             apply io_ReadAll_blocks in H; cbn in H
         end.
  all: match goal with
       | H : fate context_Background ?b = _ |- ?b = NeverExits =>
           destruct b; [discriminate H | reflexivity]
       | H : match ?f with _ => _ end = Stalls |- _ =>
           destruct f eqn:?; try discriminate H
       end.
Qed.

Lemma run_blocks_only_on_stdin_or_runtime_witness :
  exists err,
    completion (call (XfnSpark.Run
                        (sample_world None (Ok []) (sample_process NeverExits) None)
                        (sample_xfn_command 0) "index.docker.io" ""))
    = Returned err.
Proof.
  apply (proj1 (run_blocks_only_on_stdin_or_runtime
                  (sample_world None (Ok []) (sample_process NeverExits) None))).
  discriminate.
Defined.

Lemma io_ReadAll_faults (r : Reader) (n : Z) (b : bytes) (e : error) :
  io_ReadAll (limitReaderIfNonZero r n) = Some (b, Some e) -> ending r = Fault e.
Proof.
  unfold limitReaderIfNonZero, io_LimitReader, io_ReadAll.
  destruct (n =? 0); [| destruct (n <=? 0); [| destruct (n <=? _)]]; cbn;
    destruct (ending r); congruence.
Qed.

(** X13.  In the function-runtime-oci generation a runtime that was started and
    never exits blocks the run for ever, whatever the stdio limit lets
    through, and the bundle is never cleaned up. *)
Theorem spark_never_exiting_runtime_blocks
  (w : World) (c : Spark.Command) (args : Config.Args) (d : option Z) :
  let out := call (Spark.Run w c args) in
  behaviour (process w) = NeverExits ->
  In (EvStart d) (trace out) ->
  completion out = Blocked /\ cleanups (trace out) = 0%nat /\ written (trace out) = [].
Proof.
  intros out Hb. subst out. run_cases.
  all: intros H; in_trace H.
  all: try (match goal with
            | H : fate context_Background _ = _ |- _ =>
                rewrite Hb in H; discriminate H
            end).
  all: try (exfalso;
            match goal with
            | H : io_ReadAll (limitReaderIfNonZero (pipe Running _ _) _) = Some (_, Some _)
              |- _ => apply io_ReadAll_faults in H; discriminate H
            end).
  all: repeat split; reflexivity.
Qed.

Lemma spark_never_exiting_runtime_blocks_witness :
  let out := call (Spark.Run
                     (sample_world None (Ok []) (sample_process NeverExits) None)
                     (sample_spark_command 4) sample_args) in
  completion out = Blocked /\ cleanups (trace out) = 0%nat /\ written (trace out) = [].
Proof.
  apply (spark_never_exiting_runtime_blocks
           (sample_world None (Ok []) (sample_process NeverExits) None)
           (sample_spark_command 4) sample_args None eq_refl).
  cbn. tauto.
Defined.

(** X14.  A run writes to its standard output at most once, and only after the
    runtime exited with status zero and [Cleanup] succeeded; what it writes
    is the captured standard output of the runtime. *)
Theorem response_written_only_after_cleanup (w : World) (p : bytes) :
  (forall (c : XfnSpark.Command) (registry defaultImage : string),
     let out := call (XfnSpark.Run w c registry defaultImage) in
     In (EvWrite p) (trace out) ->
     written (trace out) = [p] /\
     p = captured (XfnSpark.MaxStdioBytes c) (proc_stdout (process w)) /\
     In (EvWait (Exited 0)) (trace out) /\
     cleanups (trace out) = 1%nat /\ bundle_Cleanup w = None) /\
  (forall (c : Spark.Command) (args : Config.Args),
     let out := call (Spark.Run w c args) in
     In (EvWrite p) (trace out) ->
     written (trace out) = [p] /\
     p = captured (Spark.MaxStdioBytes c) (proc_stdout (process w)) /\
     In (EvWait (Exited 0)) (trace out) /\
     cleanups (trace out) = 1%nat /\ bundle_Cleanup w = None).
Proof.
  split; [intros c registry defaultImage out | intros c args out]; subst out; run_cases.
  all: intros H; in_trace H.
  all: injection H as <-.
  all: read_captured.
  all: repeat match goal with
         | H : (_ =? 0) = true |- _ => apply Z.eqb_eq in H; subst
         end.
  all: cbn; repeat split; auto.
Qed.

Lemma response_written_only_after_cleanup_witness :
  list_byte_of_string "response"
  = captured 0 (proc_stdout (process
      (sample_world None (Ok []) (sample_process (Exits 1000 0)) None))).
Proof.
  refine (proj1 (proj2 (proj1 (response_written_only_after_cleanup
           (sample_world None (Ok []) (sample_process (Exits 1000 0)) None)
           (list_byte_of_string "response"))
           (sample_xfn_command 0) "index.docker.io" "" _))).
  cbn. tauto.
Defined.

(** X15.  Without a bundle there is nothing to clean up and nothing to run: when
    the bundle store returned no bundle, the run never invokes [Cleanup],
    never starts the runtime and writes nothing.  No run invokes [Cleanup]
    or starts the runtime more than once. *)
Theorem no_bundle_no_cleanup (w : World) :
  (forall (c : XfnSpark.Command) (registry defaultImage : string),
     let tr := trace (call (XfnSpark.Run w c registry defaultImage)) in
     (cleanups tr <= 1)%nat /\ (starts tr <= 1)%nat /\
     (bundle_created tr = false ->
      cleanups tr = 0%nat /\ starts tr = 0%nat /\ written tr = [])) /\
  (forall (c : Spark.Command) (args : Config.Args),
     let tr := trace (call (Spark.Run w c args)) in
     (cleanups tr <= 1)%nat /\ (starts tr <= 1)%nat /\
     (bundle_created tr = false ->
      cleanups tr = 0%nat /\ starts tr = 0%nat /\ written tr = [])).
Proof.
  split; [intros c registry defaultImage tr | intros c args tr]; subst tr; run_cases.
  all: split; [cbn; lia | split; [cbn; lia |]].
  all: intros H; try discriminate H.
  all: repeat split; reflexivity.
Qed.

(** X16.  The default image is used only when the request names none: for a
    request whose config names an image, the run is the same whatever the
    default image is. *)
Theorem request_image_overrides_default
  (w : World) (c : XfnSpark.Command) (registry defaultImage defaultImage' : string)
  (pb confJSON : bytes) (req : RunFunctionRequest) (input : Struct)
  (conf : Container.RunFunctionRequestConfig) :
  io_ReadAll (stdin w) = Some (pb, None) ->
  proto_Unmarshal w pb = Ok req ->
  Input req = Some input ->
  Struct_MarshalJSON w input = Ok confJSON ->
  json_Unmarshal_config w confJSON = Ok conf ->
  Image (Container.Spec conf) <> "" ->
  call (XfnSpark.Run w c registry defaultImage)
  = call (XfnSpark.Run w c registry defaultImage').
Proof.
  intros Hr Hu Hi Hm Hc Himg.
  apply String.eqb_neq in Himg.
  unfold_run. rewrite Hr. cbn. rewrite Hu. cbn. rewrite Hi. cbn. rewrite Hm. cbn.
  rewrite Hc. cbn. unfold GetImage. rewrite Himg. reflexivity.
Qed.

Lemma request_image_overrides_default_witness :
  call (XfnSpark.Run (sample_world None (Ok []) (sample_process (Exits 1000 0)) None)
          (sample_xfn_command 0) "index.docker.io" "")
  = call (XfnSpark.Run (sample_world None (Ok []) (sample_process (Exits 1000 0)) None)
            (sample_xfn_command 0) "index.docker.io" "example.com/default:v1").
Proof.
  apply (request_image_overrides_default
           (sample_world None (Ok []) (sample_process (Exits 1000 0)) None)
           (sample_xfn_command 0) "index.docker.io" "" "example.com/default:v1"
           (list_byte_of_string "request") (list_byte_of_string "{}")
           sample_request (mkStruct (list_byte_of_string "{}"))
           (sample_config None));
    try reflexivity.
  discriminate.
Defined.

(** ** More on the spec options *)

(** X17.  Without limits and without the Runner policy both options leave the
    spec as it is and report no error, whatever the quantity parsers would
    do; so does [FromRunFunctionConfig] on a nil config. *)
Theorem options_without_settings_are_identity
  (parseCPU parseMemory : string -> result Z) (s : OCISpec.Spec) :
  (forall cfg,
     GetCpu (GetLimits (GetResources cfg)) = "" ->
     GetMemory (GetLimits (GetResources cfg)) = "" ->
     GetPolicy (GetNetwork cfg) <> NETWORK_POLICY_RUNNER ->
     FromRunFunctionConfig parseCPU parseMemory cfg s = (s, None)) /\
  FromRunFunctionConfig parseCPU parseMemory None s = (s, None) /\
  (forall policy,
     policy <> Config.NetworkPolicyRunner ->
     FromResourcesConfig parseCPU parseMemory
       (Some (Config.mkResourcesConfig "" "" policy)) s = (s, None)).
Proof.
  split; [| split].
  - intros cfg Hc Hm Hp. unfold FromRunFunctionConfig. rewrite Hc, Hm. cbn.
    destruct (NetworkPolicy_pb_eqb _ _) eqn:E; [| reflexivity].
    apply NetworkPolicy_pb_eqb_spec in E. contradiction.
  - reflexivity.
  - intros policy Hp. unfold FromResourcesConfig. cbn.
    destruct (String.eqb_spec policy Config.NetworkPolicyRunner); [contradiction |].
    reflexivity.
Qed.

Lemma options_without_settings_are_identity_witness :
  FromRunFunctionConfig sample_quantity sample_quantity
    (Some (sample_run_config NETWORK_POLICY_ISOLATED "" None)) sample_spec
  = (sample_spec, None).
Proof.
  apply (proj1 (options_without_settings_are_identity
                  sample_quantity sample_quantity sample_spec));
    [reflexivity | reflexivity | discriminate].
Defined.

(** X18.  A CPU limit that does not parse is reported first and alone: the
    option returns the parser's error wrapped with the CPU message, whatever
    the memory limit and the network policy are, and the parser of the
    memory limit has no say in it. *)
Theorem cpu_limit_error_comes_first
  (parseCPU parseMemory parseMemory' : string -> result Z) (s : OCISpec.Spec)
  (e : error) :
  (forall cfg,
     GetCpu (GetLimits (GetResources cfg)) <> "" ->
     parseCPU (GetCpu (GetLimits (GetResources cfg))) = Err e ->
     snd (FromRunFunctionConfig parseCPU parseMemory cfg s)
     = Some (Wrapped e errCPULimit) /\
     FromRunFunctionConfig parseCPU parseMemory cfg s
     = FromRunFunctionConfig parseCPU parseMemory' cfg s) /\
  (forall cfg,
     Config.CPULimit cfg <> "" ->
     parseCPU (Config.CPULimit cfg) = Err e ->
     snd (FromResourcesConfig parseCPU parseMemory (Some cfg) s)
     = Some (Wrapped e errCPULimit) /\
     FromResourcesConfig parseCPU parseMemory (Some cfg) s
     = FromResourcesConfig parseCPU parseMemory' (Some cfg) s).
Proof.
  split; intros cfg Hne Herr; apply String.eqb_neq in Hne.
  - unfold FromRunFunctionConfig, OCISpec.WithCPULimit. rewrite Hne, Herr. cbn. auto.
  - unfold FromResourcesConfig, OCISpec.WithCPULimit. rewrite Hne, Herr. cbn. auto.
Qed.

Lemma cpu_limit_error_comes_first_witness :
  snd (FromResourcesConfig sample_quantity sample_quantity
         (Some (Config.mkResourcesConfig "lots" "half" Config.NetworkPolicyRunner))
         sample_spec)
  = Some (Wrapped (errors_New "quantities must match the regular expression")
            errCPULimit).
Proof.
  apply (proj1 (proj2 (cpu_limit_error_comes_first sample_quantity sample_quantity
                         sample_quantity sample_spec
                         (errors_New "quantities must match the regular expression"))
                      (Config.mkResourcesConfig "lots" "half" Config.NetworkPolicyRunner)
                      ltac:(discriminate) eq_refl)).
Defined.

(** ** More on the request's configuration *)

(** X19.  [ConfigFromRequest] returns a config or an error, never both and never
    neither; an error is the codec's error wrapped with the message of the
    step that failed, and a config that was decoded is returned as
    decoded. *)
Theorem ConfigFromRequest_config_xor_error
  (MarshalJSON : Struct -> result bytes)
  (json_Unmarshal : bytes -> result Container.RunFunctionRequestConfig)
  (req : option RunFunctionRequest) :
  match Container.ConfigFromRequest MarshalJSON json_Unmarshal req with
  | (Some cfg, None) =>
      GetInput req = None /\ cfg = Container.zero_RunFunctionRequestConfig \/
      exists input inputJSON,
        GetInput req = Some input /\ MarshalJSON input = Ok inputJSON /\
        json_Unmarshal inputJSON = Ok cfg
  | (None, Some err) =>
      exists input,
        GetInput req = Some input /\
        ((exists e, MarshalJSON input = Err e /\
                    err = Wrapped e Container.errMarshalRequestInput) \/
         (exists inputJSON e,
            MarshalJSON input = Ok inputJSON /\ json_Unmarshal inputJSON = Err e /\
            err = Wrapped e Container.errUnmarshalConfig))
  | _ => False
  end.
Proof.
  unfold Container.ConfigFromRequest.
  destruct (GetInput req) as [input|]; [| left; split; reflexivity].
  destruct (MarshalJSON input) as [inputJSON|e] eqn:Em; cbn.
  - destruct (json_Unmarshal inputJSON) as [cfg|e] eqn:Eu; cbn.
    + right. exists input, inputJSON. auto.
    + exists input. split; [reflexivity |]. right. exists inputJSON, e. auto.
  - exists input. split; [reflexivity |]. left. exists e. auto.
Qed.

(** ** More on the stdio limit *)

(** X20.  A negative limit silences a stream: reading it through
    [limitReaderIfNonZero] returns no byte and no error at once, even when
    the stream itself would fail or block; a run that succeeds under a
    negative [MaxStdioBytes] writes an empty response. *)
Theorem negative_limit_reads_nothing (limit : Z) :
  limit < 0 ->
  (forall r, io_ReadAll (limitReaderIfNonZero r limit) = Some ([], None)) /\
  (forall (w : World) (c : XfnSpark.Command) (registry defaultImage : string) p,
     XfnSpark.MaxStdioBytes c = limit ->
     In (EvWrite p) (trace (call (XfnSpark.Run w c registry defaultImage))) ->
     p = []) /\
  (forall (w : World) (c : Spark.Command) (args : Config.Args) p,
     Spark.MaxStdioBytes c = limit ->
     In (EvWrite p) (trace (call (Spark.Run w c args))) ->
     p = []).
Proof.
  intros Hl.
  assert (Hr : forall r, io_ReadAll (limitReaderIfNonZero r limit) = Some ([], None)).
  { intros r. unfold limitReaderIfNonZero, io_LimitReader.
    destruct (Z.eqb_spec limit 0); [lia |].
    destruct (Z.leb_spec limit 0); [reflexivity | lia]. }
  split; [exact Hr | split].
  - intros w c registry defaultImage p Hc. run_cases.
    all: intros H; in_trace H.
    all: injection H as <-.
    all: match goal with
         | Ho : io_ReadAll (limitReaderIfNonZero (pipe _ (proc_stdout _) _) _)
                = Some (?b, _) |- ?b = [] =>
             rewrite Hc, Hr in Ho; congruence
         end.
  - intros w c args p Hc. run_cases.
    all: intros H; in_trace H.
    all: injection H as <-.
    all: match goal with
         | Ho : io_ReadAll (limitReaderIfNonZero (pipe _ (proc_stdout _) _) _)
                = Some (?b, _) |- ?b = [] =>
             rewrite Hc, Hr in Ho; congruence
         end.
Qed.

Lemma negative_limit_reads_nothing_witness :
  io_ReadAll (limitReaderIfNonZero
                (mkReader (list_byte_of_string "response") Stalls) (-1))
  = Some ([], None).
Proof.
  apply (proj1 (negative_limit_reads_nothing (-1) ltac:(lia))).
Defined.

(** ** The image pull policy *)


(** ** The runner of the start command *)

(** X22.  The runner of the xfn-oci start command caches under the cleaned cache
    directory of the command, never under the package default, uses the
    registry it was given, and has a default image exactly when the one it
    was given is not empty. *)
Theorem start_runner_configuration
  (filepath_Clean : string -> string) (c : XfnStart.Command) (h : Host)
  (registry defaultImage : string) :
  let r := XfnStart.Run_runner filepath_Clean c h registry defaultImage in
  Container.cache r = filepath_Clean (XfnStart.CacheDir c) /\
  Container.registry r = registry /\
  Container.defaultImage r
  = (if String.eqb defaultImage "" then None else Some defaultImage) /\
  Container.defaultImage r <> Some "".
Proof.
  unfold XfnStart.Run_runner, Container.NewContainerRunner. cbn [fold_left].
  unfold Container.WithDefaultImage.
  destruct (String.eqb_spec defaultImage ""); cbn; repeat split; congruence.
Qed.

Lemma start_closes_tarball_once_witness :
  closes "/function.tar"
    (snd (OCIStartCmd.Run
            (sample_start_env (Fault (errors_New "gzip: invalid checksum")) None)
            sample_start_command sample_args (sample_host true true)))
  = 1%nat.
Proof.
  exact (proj1 (start_closes_tarball_once
                  (sample_start_env (Fault (errors_New "gzip: invalid checksum")) None)
                  sample_start_command sample_args (sample_host true true))).
Defined.

Lemma no_bundle_no_cleanup_witness :
  let tr := trace (call (Spark.Run
                           (sample_world None (Ok []) (sample_process (Exits 1000 0)) None)
                           (Spark.mkCommand "/function-runtime-oci-cache" "crun" 0
                              (Config.mkResourcesConfig "" "lots"
                                 Config.NetworkPolicyIsolated))
                           sample_args)) in
  cleanups tr = 0%nat /\ starts tr = 0%nat /\ written tr = [].
Proof.
  apply (proj2 (proj2 (proj2 (no_bundle_no_cleanup
           (sample_world None (Ok []) (sample_process (Exits 1000 0)) None))
           (Spark.mkCommand "/function-runtime-oci-cache" "crun" 0
              (Config.mkResourcesConfig "" "lots" Config.NetworkPolicyIsolated))
           sample_args))).
  reflexivity.
Defined.

Lemma xfn_bundle_cleanup_once_witness :
  cleanups (trace (call (XfnSpark.Run
                           (sample_world (Some 5) (Ok []) (sample_process NeverExits) None)
                           (sample_xfn_command 0) "index.docker.io" ""))) = 1%nat.
Proof.
  apply (xfn_bundle_cleanup_once
           (sample_world (Some 5) (Ok []) (sample_process NeverExits) None)
           (sample_xfn_command 0) "index.docker.io" "").
  reflexivity.
Defined.

Lemma spark_bundle_cleanup_once_otherwise_witness :
  cleanups (trace (call (Spark.Run
                           (sample_world None (Ok []) (sample_process (Exits 1000 2)) None)
                           (sample_spark_command 0) sample_args))) = 1%nat.
Proof.
  apply (spark_bundle_cleanup_once_otherwise
           (sample_world None (Ok []) (sample_process (Exits 1000 2)) None)
           (sample_spark_command 0) sample_args
           (Some (Wrapped (exec_ExitError 2 [])
                    "while waiting for command: diagnostics")));
    [reflexivity | reflexivity | discriminate].
Defined.

(** ** Runs that reach the runtime *)

Lemma read_pipe_clean (code : Z) (d : bytes) (ft : option error) (n : Z) :
  reads_clean n d ft ->
  io_ReadAll (limitReaderIfNonZero (pipe (Exited code) d ft) n)
  = Some (captured n d, None).
Proof.
  unfold reads_clean, limitReaderIfNonZero, io_LimitReader, io_ReadAll, captured, pipe.
  cbn [data ending].
  intros [-> | Hn].
  - destruct (Z.eqb_spec n 0); [reflexivity |].
    destruct (Z.leb_spec n 0); cbn.
    + replace (Z.to_nat n) with 0%nat by lia. reflexivity.
    + destruct (Z.leb_spec n (Z.of_nat (List.length d))); cbn; [reflexivity |].
      rewrite firstn_all2 by lia. reflexivity.
  - destruct (Z.eqb_spec n 0); [lia |].
    destruct (Z.leb_spec n 0); [lia |].
    destruct (Z.leb_spec n (Z.of_nat (List.length d))); [reflexivity | lia].
Qed.

(** Follow a run along the outcomes that the hypotheses fix. *)
Ltac follow :=
  repeat (cbn in *;
          match goal with
          | H : ?x = _ |- context [match ?x with _ => _ end] => rewrite H
          | H : ?x = _ |- context [if ?x then _ else _] => rewrite H
          | H : ?x = _ |- context [negb ?x] => rewrite H
          end);
  cbn.

Ltac open_xfn_decoded H :=
  let pb := fresh "pb" in
  let input := fresh "input" in
  let confJSON := fresh "confJSON" in
  destruct H as (pb & input & confJSON & ? & ? & ? & ? & ?).

Lemma xfn_run_probes (w : World) (c : XfnSpark.Command) (registry defaultImage : string)
      (req : RunFunctionRequest) (conf : Container.RunFunctionRequestConfig) :
  XfnReach.decoded w req conf ->
  exists rest,
    trace (call (XfnSpark.Run w c registry defaultImage))
    = EvSupported (XfnSpark.CacheDir c) :: rest /\
    filter is_supported rest = [].
Proof.
  intros Hd. open_xfn_decoded Hd.
  unfold_run. follow.
  repeat (case_step; cbn).
  all: eexists; split; reflexivity.
Qed.

Ltac open_xfn_pulled H w c conf :=
  let ref := fresh "ref" in
  destruct H as (Hnew & ? & ref & ? & Hca & ?);
  unfold XfnReach.context, probed_kind in *;
  destruct (AsDuration (GetTimeout (GetRunFunctionConfig (Container.Spec conf))) =? 0)
    eqn:?;
  destruct (overlay_Supported w (XfnSpark.CacheDir c)) eqn:?;
  [specialize (Hnew eq_refl) | clear Hnew | specialize (Hnew eq_refl) | clear Hnew];
  (destruct (String.eqb (XfnSpark.CABundlePath c) "") eqn:Eca;
   [clear Hca | apply String.eqb_neq in Eca; specialize (Hca Eca);
                apply String.eqb_neq in Eca]);
  cbn in *.

Lemma xfn_run_bundles (w : World) (c : XfnSpark.Command) (registry defaultImage : string)
      (req : RunFunctionRequest) (conf : Container.RunFunctionRequestConfig)
      (image : string) :
  XfnReach.decoded w req conf ->
  XfnReach.pulled w c registry defaultImage conf image ->
  In (EvBundle (probed_kind w (XfnSpark.CacheDir c))
               match XfnReach.bundle_result w c conf image with
               | Ok _ => true
               | Err _ => false
               end)
     (trace (call (XfnSpark.Run w c registry defaultImage))).
Proof.
  intros Hd Hp. open_xfn_decoded Hd. unfold XfnReach.bundle_result.
  open_xfn_pulled Hp w c conf.
  all: unfold_run; follow.
  all: repeat (case_step; cbn).
  all: tauto.
Qed.

Ltac open_xfn_started H w c conf :=
  let Hd := fresh "Hd" in
  let Hp := fresh "Hp" in
  let image := fresh "image" in
  let b := fresh "b" in
  let reqJSON := fresh "reqJSON" in
  destruct H as (Hd & image & b & reqJSON & Hp & ? & ? & ? & ? & ? & ?);
  open_xfn_decoded Hd; unfold XfnReach.bundle_result in *;
  open_xfn_pulled Hp w c conf.

Lemma xfn_run_nonzero_exit (w : World) (c : XfnSpark.Command)
      (registry defaultImage : string) (req : RunFunctionRequest)
      (conf : Container.RunFunctionRequestConfig) (code : Z) :
  XfnReach.started w c registry defaultImage req conf ->
  exits_with (XfnReach.context conf) (process w) code ->
  reads_clean (XfnSpark.MaxStdioBytes c) (proc_stdout (process w)) (stdout_fault (process w)) ->
  reads_clean (XfnSpark.MaxStdioBytes c) (proc_stderr (process w)) (stderr_fault (process w)) ->
  code <> 0 ->
  call (XfnSpark.Run w c registry defaultImage)
  = mkOutcome
      (Returned (Some (Wrapped
         (exec_ExitError code
            (captured (XfnSpark.MaxStdioBytes c) (proc_stderr (process w))))
         XfnSpark.errRuntime)))
      [EvSupported (XfnSpark.CacheDir c);
       EvBundle (probed_kind w (XfnSpark.CacheDir c)) true;
       EvStart (Deadline (XfnReach.context conf));
       EvWait (Exited code); EvCleanup].
Proof.
  intros Hs He Hout Herr Hc. unfold exits_with in He.
  apply (read_pipe_clean code) in Hout, Herr.
  apply Z.eqb_neq in Hc.
  open_xfn_started Hs w c conf.
  all: unfold_run; follow; reflexivity.
Qed.

Lemma xfn_run_zero_exit (w : World) (c : XfnSpark.Command)
      (registry defaultImage : string) (req : RunFunctionRequest)
      (conf : Container.RunFunctionRequestConfig) :
  XfnReach.started w c registry defaultImage req conf ->
  exits_with (XfnReach.context conf) (process w) 0 ->
  reads_clean (XfnSpark.MaxStdioBytes c) (proc_stdout (process w)) (stdout_fault (process w)) ->
  reads_clean (XfnSpark.MaxStdioBytes c) (proc_stderr (process w)) (stderr_fault (process w)) ->
  wait_fault (process w) = None ->
  let stdout := captured (XfnSpark.MaxStdioBytes c) (proc_stdout (process w)) in
  let pre := [EvSupported (XfnSpark.CacheDir c);
              EvBundle (probed_kind w (XfnSpark.CacheDir c)) true;
              EvStart (Deadline (XfnReach.context conf));
              EvWait (Exited 0); EvCleanup] in
  call (XfnSpark.Run w c registry defaultImage)
  = match bundle_Cleanup w with
    | None =>
        mkOutcome (Returned (errors_Wrap (os_Stdout_Write w stdout)
                               XfnSpark.errWriteResponse))
                  (pre ++ [EvWrite stdout])
    | Some err =>
        mkOutcome (Returned (Some (Wrapped err XfnSpark.errCleanupBundle))) pre
    end.
Proof.
  intros Hs He Hout Herr Hw. unfold exits_with in He.
  apply (read_pipe_clean 0) in Hout, Herr.
  open_xfn_started Hs w c conf.
  all: unfold_run; follow.
  all: destruct (bundle_Cleanup w); cbn; [reflexivity |].
  all: destruct (os_Stdout_Write w _); reflexivity.
Qed.

Lemma xfn_run_new_bundler_fails (w : World) (c : XfnSpark.Command)
      (registry defaultImage : string) (req : RunFunctionRequest)
      (conf : Container.RunFunctionRequestConfig) (e : error) :
  XfnReach.decoded w req conf ->
  overlay_Supported w (XfnSpark.CacheDir c) = true ->
  overlay_NewCachingBundler w (XfnSpark.CacheDir c) = Some e ->
  call (XfnSpark.Run w c registry defaultImage)
  = mkOutcome (Returned (Some (Wrapped e XfnSpark.errNewBundleStore)))
              [EvSupported (XfnSpark.CacheDir c)].
Proof.
  intros Hd Hs Hn. open_xfn_decoded Hd.
  unfold_run; follow. reflexivity.
Qed.

Lemma xfn_run_undecoded (w : World) (c : XfnSpark.Command)
      (registry defaultImage : string) :
  (forall req conf, ~ XfnReach.decoded w req conf) ->
  trace (call (XfnSpark.Run w c registry defaultImage)) = [].
Proof.
  intros Hn. run_cases.
  all: try reflexivity.
  all: exfalso; eapply Hn; do 3 eexists; repeat split; eassumption.
Qed.

(** *** The function-runtime-oci generation *)

Ltac open_spark_decoded H :=
  let pb := fresh "pb" in
  destruct H as (pb & ? & ?).

Ltac open_spark_opened H w c :=
  destruct H as (Hnew & ?);
  unfold probed_kind in *;
  destruct (overlay_Supported w (Spark.CacheDir c)) eqn:?;
  [specialize (Hnew eq_refl) | clear Hnew];
  cbn in *.

Ltac open_spark_started H w c :=
  let Hd := fresh "Hd" in
  let Hp := fresh "Hp" in
  let image := fresh "image" in
  let b := fresh "b" in
  let reqJSON := fresh "reqJSON" in
  destruct H as (Hd & image & b & reqJSON & Hp & ? & ? & ? & ? & ? & ?);
  open_spark_decoded Hd; unfold SparkReach.bundle_result in *;
  open_spark_opened Hp w c.

Lemma spark_run_probes (w : World) (c : Spark.Command) (args : Config.Args)
      (req : RunFunctionRequest) :
  SparkReach.decoded w req ->
  exists rest,
    trace (call (Spark.Run w c args)) = EvSupported (Spark.CacheDir c) :: rest /\
    filter is_supported rest = [].
Proof.
  intros Hd. open_spark_decoded Hd.
  unfold_run. follow.
  repeat (case_step; cbn).
  all: eexists; split; reflexivity.
Qed.

Lemma spark_run_bundles (w : World) (c : Spark.Command) (args : Config.Args)
      (req : RunFunctionRequest) (image : string) :
  SparkReach.decoded w req ->
  SparkReach.opened w c args image ->
  In (EvBundle (probed_kind w (Spark.CacheDir c))
               match SparkReach.bundle_result w c image with
               | Ok _ => true
               | Err _ => false
               end)
     (trace (call (Spark.Run w c args))).
Proof.
  intros Hd Hp. open_spark_decoded Hd. unfold SparkReach.bundle_result.
  open_spark_opened Hp w c.
  all: unfold_run; follow.
  all: repeat (case_step; cbn).
  all: tauto.
Qed.

Lemma spark_run_nonzero_exit (w : World) (c : Spark.Command) (args : Config.Args)
      (req : RunFunctionRequest) (code : Z) :
  SparkReach.started w c args req ->
  exits_with context_Background (process w) code ->
  reads_clean (Spark.MaxStdioBytes c) (proc_stdout (process w)) (stdout_fault (process w)) ->
  reads_clean (Spark.MaxStdioBytes c) (proc_stderr (process w)) (stderr_fault (process w)) ->
  code <> 0 ->
  call (Spark.Run w c args)
  = mkOutcome
      (Returned (Some (Wrapped (exec_ExitError code [])
         (String.append "while waiting for command: "
            (string_of_list_byte
               (captured (Spark.MaxStdioBytes c) (proc_stderr (process w))))))))
      [EvSupported (Spark.CacheDir c);
       EvBundle (probed_kind w (Spark.CacheDir c)) true;
       EvStart None;
       EvWait (Exited code); EvCleanup].
Proof.
  intros Hs He Hout Herr Hc. unfold exits_with in He.
  apply (read_pipe_clean code) in Hout, Herr.
  apply Z.eqb_neq in Hc.
  open_spark_started Hs w c.
  all: unfold_run; follow; reflexivity.
Qed.

Lemma spark_run_zero_exit (w : World) (c : Spark.Command) (args : Config.Args)
      (req : RunFunctionRequest) :
  SparkReach.started w c args req ->
  exits_with context_Background (process w) 0 ->
  reads_clean (Spark.MaxStdioBytes c) (proc_stdout (process w)) (stdout_fault (process w)) ->
  reads_clean (Spark.MaxStdioBytes c) (proc_stderr (process w)) (stderr_fault (process w)) ->
  wait_fault (process w) = None ->
  let stdout := captured (Spark.MaxStdioBytes c) (proc_stdout (process w)) in
  let pre := [EvSupported (Spark.CacheDir c);
              EvBundle (probed_kind w (Spark.CacheDir c)) true;
              EvStart None;
              EvWait (Exited 0); EvCleanup] in
  call (Spark.Run w c args)
  = match bundle_Cleanup w with
    | None =>
        mkOutcome (Returned (errors_Wrap (os_Stdout_Write w stdout)
                               Spark.errWriteResponse))
                  (pre ++ [EvWrite stdout])
    | Some err =>
        mkOutcome (Returned (Some (Wrapped err Spark.errCleanupBundle))) pre
    end.
Proof.
  intros Hs He Hout Herr Hw. unfold exits_with in He.
  apply (read_pipe_clean 0) in Hout, Herr.
  open_spark_started Hs w c.
  all: unfold_run; follow.
  all: destruct (bundle_Cleanup w); cbn; [reflexivity |].
  all: destruct (os_Stdout_Write w _); reflexivity.
Qed.

Lemma spark_run_new_bundler_fails (w : World) (c : Spark.Command) (args : Config.Args)
      (req : RunFunctionRequest) (e : error) :
  SparkReach.decoded w req ->
  overlay_Supported w (Spark.CacheDir c) = true ->
  overlay_NewCachingBundler w (Spark.CacheDir c) = Some e ->
  call (Spark.Run w c args)
  = mkOutcome (Returned (Some (Wrapped e Spark.errNewBundleStore)))
              [EvSupported (Spark.CacheDir c)].
Proof.
  intros Hd Hs Hn. open_spark_decoded Hd.
  unfold_run; follow. reflexivity.
Qed.

Lemma spark_run_undecoded (w : World) (c : Spark.Command) (args : Config.Args) :
  (forall req, ~ SparkReach.decoded w req) ->
  trace (call (Spark.Run w c args)) = [].
Proof.
  intros Hn. run_cases.
  all: try reflexivity.
  all: exfalso; eapply Hn; eexists; split; eassumption.
Qed.

Lemma read_pipe_faulty (code : Z) (d : bytes) (ft : option error) (n : Z) (e : error) :
  reads_faulty n d ft e ->
  io_ReadAll (limitReaderIfNonZero (pipe (Exited code) d ft) n) = Some (d, Some e).
Proof.
  unfold reads_faulty, limitReaderIfNonZero, io_LimitReader, io_ReadAll, pipe.
  cbn [data ending].
  intros [-> [-> | Hn]]; [reflexivity |].
  destruct (Z.eqb_spec n 0); [reflexivity |].
  destruct (Z.leb_spec n 0); [lia |].
  destruct (Z.leb_spec n (Z.of_nat (List.length d))); [lia | reflexivity].
Qed.

Lemma xfn_run_stderr_fault (w : World) (c : XfnSpark.Command)
      (registry defaultImage : string) (req : RunFunctionRequest)
      (conf : Container.RunFunctionRequestConfig) (code : Z) (e : error) :
  XfnReach.started w c registry defaultImage req conf ->
  exits_with (XfnReach.context conf) (process w) code ->
  reads_clean (XfnSpark.MaxStdioBytes c) (proc_stdout (process w)) (stdout_fault (process w)) ->
  reads_faulty (XfnSpark.MaxStdioBytes c) (proc_stderr (process w)) (stderr_fault (process w)) e ->
  call (XfnSpark.Run w c registry defaultImage)
  = mkOutcome (Returned (Some (Wrapped e XfnSpark.errRuntime)))
      [EvSupported (XfnSpark.CacheDir c);
       EvBundle (probed_kind w (XfnSpark.CacheDir c)) true;
       EvStart (Deadline (XfnReach.context conf)); EvCleanup].
Proof.
  intros Hs He Hout Herr. unfold exits_with in He.
  apply (read_pipe_clean code) in Hout. apply (read_pipe_faulty code) in Herr.
  open_xfn_started Hs w c conf.
  all: unfold_run; follow; reflexivity.
Qed.

Lemma spark_run_stderr_fault (w : World) (c : Spark.Command) (args : Config.Args)
      (req : RunFunctionRequest) (code : Z) (e : error) :
  SparkReach.started w c args req ->
  exits_with context_Background (process w) code ->
  reads_clean (Spark.MaxStdioBytes c) (proc_stdout (process w)) (stdout_fault (process w)) ->
  reads_faulty (Spark.MaxStdioBytes c) (proc_stderr (process w)) (stderr_fault (process w)) e ->
  call (Spark.Run w c args)
  = mkOutcome (Returned (Some (Wrapped e "cannot read stderr")))
      [EvSupported (Spark.CacheDir c);
       EvBundle (probed_kind w (Spark.CacheDir c)) true;
       EvStart None; EvCleanup].
Proof.
  intros Hs He Hout Herr. unfold exits_with in He.
  apply (read_pipe_clean code) in Hout. apply (read_pipe_faulty code) in Herr.
  open_spark_started Hs w c.
  all: unfold_run; follow; reflexivity.
Qed.

(** In the concrete world every step up to the start of the runtime
    succeeds, in both generations. *)
Lemma sample_world_xfn_started (timeout : option Z) (p : Process)
      (cleanup : err_result) (n : Z) :
  XfnReach.started (sample_world timeout (Ok []) p cleanup) (sample_xfn_command n)
    "index.docker.io" "" sample_request (sample_config timeout).
Proof.
  split.
  - do 3 eexists. repeat split; reflexivity.
  - do 3 eexists. split; [| repeat split; reflexivity].
    split; [reflexivity |]. split; [reflexivity |].
    eexists. split; [reflexivity |]. split; [reflexivity | reflexivity].
Qed.

Lemma sample_world_spark_started (timeout : option Z) (p : Process)
      (cleanup : err_result) (n : Z) :
  SparkReach.started (sample_world timeout (Ok []) p cleanup) (sample_spark_command n)
    sample_args sample_request.
Proof.
  split.
  - eexists. split; reflexivity.
  - do 3 eexists. split; [| repeat split; reflexivity].
    split; reflexivity.
Qed.

Lemma xfn_run_stdout_fault (w : World) (c : XfnSpark.Command)
      (registry defaultImage : string) (req : RunFunctionRequest)
      (conf : Container.RunFunctionRequestConfig) (code : Z) (e : error) :
  XfnReach.started w c registry defaultImage req conf ->
  exits_with (XfnReach.context conf) (process w) code ->
  reads_faulty (XfnSpark.MaxStdioBytes c) (proc_stdout (process w)) (stdout_fault (process w)) e ->
  call (XfnSpark.Run w c registry defaultImage)
  = mkOutcome (Returned (Some (Wrapped e XfnSpark.errRuntime)))
      [EvSupported (XfnSpark.CacheDir c);
       EvBundle (probed_kind w (XfnSpark.CacheDir c)) true;
       EvStart (Deadline (XfnReach.context conf)); EvCleanup].
Proof.
  intros Hs He Hout. unfold exits_with in He.
  apply (read_pipe_faulty code) in Hout.
  open_xfn_started Hs w c conf.
  all: unfold_run; follow; reflexivity.
Qed.

Lemma spark_run_stdout_fault (w : World) (c : Spark.Command) (args : Config.Args)
      (req : RunFunctionRequest) (code : Z) (e : error) :
  SparkReach.started w c args req ->
  exits_with context_Background (process w) code ->
  reads_faulty (Spark.MaxStdioBytes c) (proc_stdout (process w)) (stdout_fault (process w)) e ->
  call (Spark.Run w c args)
  = mkOutcome (Returned (Some (Wrapped e "cannot read stdout")))
      [EvSupported (Spark.CacheDir c);
       EvBundle (probed_kind w (Spark.CacheDir c)) true;
       EvStart None; EvCleanup].
Proof.
  intros Hs He Hout. unfold exits_with in He.
  apply (read_pipe_faulty code) in Hout.
  open_spark_started Hs w c.
  all: unfold_run; follow; reflexivity.
Qed.

(** ** The stdio byte limit in a run *)

(** C5.  Reading through [limitReaderIfNonZero] with limit 0 is reading the
    stream itself, unbounded; with a limit [N > 0] what a read to the end
    returns is the first [N] bytes of the stream, at most [N] bytes, and a
    stream of [N] bytes or more is cut with a nil error.  Both generations
    of the run read the two streams of the runtime in this way with the
    command's [MaxStdioBytes]: in a world where every step up to the start
    of the runtime succeeds, the runtime exits with [code], and each stream
    has no read fault or is cut by the limit, both reads return and
    [cmd.Wait] collects the status; with status zero (no fault of waiting,
    [Cleanup] succeeding) the run writes the bytes that the limit let
    through of the standard output, and with a non-zero status the error
    carries those that it let through of the standard error. *)
Theorem stdio_limit_on_runtime_streams (w : World) (code : Z) :
  (forall (r : Reader) (limit : Z),
     (limit = 0 -> io_ReadAll (limitReaderIfNonZero r limit) = io_ReadAll r) /\
     (0 < limit ->
      (forall b e, io_ReadAll (limitReaderIfNonZero r limit) = Some (b, e) ->
                   b = firstn (Z.to_nat limit) (data r) /\
                   Z.of_nat (List.length b) <= limit) /\
      (limit <= Z.of_nat (List.length (data r)) ->
       io_ReadAll (limitReaderIfNonZero r limit)
       = Some (firstn (Z.to_nat limit) (data r), None)) /\
      (Z.of_nat (List.length (data r)) < limit ->
       io_ReadAll (limitReaderIfNonZero r limit) = io_ReadAll r))) /\
  (forall d, captured 0 d = d) /\
  (forall n d, 0 < n ->
     captured n d = firstn (Z.to_nat n) d /\ Z.of_nat (List.length (captured n d)) <= n) /\
  (forall (c : XfnSpark.Command) (registry defaultImage : string)
          (req : RunFunctionRequest) (conf : Container.RunFunctionRequestConfig),
     let n := XfnSpark.MaxStdioBytes c in
     let out := call (XfnSpark.Run w c registry defaultImage) in
     XfnReach.started w c registry defaultImage req conf ->
     exits_with (XfnReach.context conf) (process w) code ->
     reads_clean n (proc_stdout (process w)) (stdout_fault (process w)) ->
     reads_clean n (proc_stderr (process w)) (stderr_fault (process w)) ->
     In (EvWait (Exited code)) (trace out) /\
     (code = 0 -> wait_fault (process w) = None -> bundle_Cleanup w = None ->
      written (trace out) = [captured n (proc_stdout (process w))]) /\
     (code <> 0 ->
      completion out
      = Returned (Some (Wrapped
          (exec_ExitError code (captured n (proc_stderr (process w))))
          XfnSpark.errRuntime)))) /\
  (forall (c : Spark.Command) (args : Config.Args) (req : RunFunctionRequest),
     let n := Spark.MaxStdioBytes c in
     let out := call (Spark.Run w c args) in
     SparkReach.started w c args req ->
     exits_with context_Background (process w) code ->
     reads_clean n (proc_stdout (process w)) (stdout_fault (process w)) ->
     reads_clean n (proc_stderr (process w)) (stderr_fault (process w)) ->
     In (EvWait (Exited code)) (trace out) /\
     (code = 0 -> wait_fault (process w) = None -> bundle_Cleanup w = None ->
      written (trace out) = [captured n (proc_stdout (process w))]) /\
     (code <> 0 ->
      completion out
      = Returned (Some (Wrapped (exec_ExitError code [])
          (String.append "while waiting for command: "
             (string_of_list_byte (captured n (proc_stderr (process w))))))))).
Proof.
  split; [| split; [| split; [| split]]].
  - intros r limit. apply limitReaderIfNonZero_reads.
  - reflexivity.
  - intros n d Hn. unfold captured. destruct (Z.eqb_spec n 0); [lia |].
    split; [reflexivity |]. rewrite length_firstn. lia.
  - intros c registry defaultImage req conf n out Hs He Ho Her. subst n out.
    destruct (Z.eq_dec code 0) as [-> | Hc].
    + destruct (wait_fault (process w)) as [wf|] eqn:Hw.
      * (* waiting fails: Wait still collected the status *)
        assert (In (EvWait (Exited 0))
                   (trace (call (XfnSpark.Run w c registry defaultImage)))) as Hin.
        { unfold exits_with in He.
          apply (read_pipe_clean 0) in Ho, Her.
          open_xfn_started Hs w c conf.
          all: unfold_run; follow; cbn; tauto. }
        split; [exact Hin |]. split; [discriminate | contradiction].
      * rewrite (xfn_run_zero_exit w c registry defaultImage req conf Hs He Ho Her Hw).
        destruct (bundle_Cleanup w); cbn;
          (split; [tauto |]); (split; [| contradiction]); intros; congruence.
    + rewrite (xfn_run_nonzero_exit w c registry defaultImage req conf code
                 Hs He Ho Her Hc).
      cbn. split; [tauto |]. split; [contradiction | reflexivity].
  - intros c args req n out Hs He Ho Her. subst n out.
    destruct (Z.eq_dec code 0) as [-> | Hc].
    + destruct (wait_fault (process w)) as [wf|] eqn:Hw.
      * assert (In (EvWait (Exited 0)) (trace (call (Spark.Run w c args)))) as Hin.
        { unfold exits_with in He.
          apply (read_pipe_clean 0) in Ho, Her.
          open_spark_started Hs w c.
          all: unfold_run; follow; cbn; tauto. }
        split; [exact Hin |]. split; [discriminate | contradiction].
      * rewrite (spark_run_zero_exit w c args req Hs He Ho Her Hw).
        destruct (bundle_Cleanup w); cbn;
          (split; [tauto |]); (split; [| contradiction]); intros; congruence.
    + rewrite (spark_run_nonzero_exit w c args req code Hs He Ho Her Hc).
      cbn. split; [tauto |]. split; [contradiction | reflexivity].
Qed.

Lemma stdio_limit_on_runtime_streams_witness :
  let fault := Some (errors_New "read |0: file already closed") in
  let p code := mkProcess (Exits 1000 code) (list_byte_of_string "response")
                  (list_byte_of_string "diagnostics") fault fault None in
  written (trace (call (XfnSpark.Run (sample_world None (Ok []) (p 0) None)
                          (sample_xfn_command 4) "index.docker.io" "")))
  = [list_byte_of_string "resp"] /\
  completion (call (Spark.Run (sample_world None (Ok []) (p 2) None)
                      (sample_spark_command 4) sample_args))
  = Returned (Some (Wrapped (exec_ExitError 2 [])
                      "while waiting for command: diag")).
Proof.
  intros fault p. split.
  - refine (proj1 (proj2 (proj1 (proj2 (proj2 (proj2
             (stdio_limit_on_runtime_streams (sample_world None (Ok []) (p 0) None) 0))))
             (sample_xfn_command 4) "index.docker.io" "" sample_request (sample_config None)
             (sample_world_xfn_started None (p 0) None 4) eq_refl _ _))
             eq_refl eq_refl eq_refl);
      right; cbn; lia.
  - refine (proj2 (proj2 (proj2 (proj2 (proj2 (proj2
             (stdio_limit_on_runtime_streams (sample_world None (Ok []) (p 2) None) 2))))
             (sample_spark_command 4) sample_args sample_request
             (sample_world_spark_started None (p 2) None 4) eq_refl _ _))
             _);
      [right; cbn; lia | right; cbn; lia | discriminate].
Defined.

(** ** Failure of the runtime *)

(** C8, as stated, fails: the runtime exits with status 2 after writing to
    its standard error, the read of its standard error fails, and the run
    returns the read error without waiting for the process; that error
    holds no exit error and none of the bytes of the standard error. *)
Lemma nonzero_exit_hidden_by_read_fault :
  let fault := errors_New "read |0: file already closed" in
  let w := sample_world None (Ok []) (sample_faulty_process 2 (Some fault)) None in
  let out := call (XfnSpark.Run w (sample_xfn_command 0) "index.docker.io" "") in
  In (EvStart (Some 25000000000)) (trace out) /\
  exits_with (mkContext (Some 25000000000)) (process w) 2 /\
  proc_stderr (process w) = list_byte_of_string "diagnostics" /\
  completion out = Returned (Some (Wrapped fault XfnSpark.errRuntime)) /\
  errors_As_ExitError (Wrapped fault XfnSpark.errRuntime) = None /\
  (forall f, ~ In (EvWait f) (trace out)).
Proof.
  cbn. repeat split; try tauto.
  intros f H. in_trace H.
Qed.

(** C8, amended.  Whenever [cmd.Wait] collects a non-zero exit status of
    the runtime, the run returns an error, writes no response, and the
    error carries the bytes captured from the standard error of the
    process: in the [Stderr] field of the exit error in the xfn-oci
    generation, in the message that wraps it in the function-runtime-oci
    generation.  [cmd.Wait] collects the status in every world where each
    step up to the start of the runtime succeeds, the runtime exits with
    that status and both of its streams are read through the limit without
    a read error.  When the read of the standard output, or after it the
    read of the standard error, meets a read error instead, the run returns
    that read error, wrapped, without waiting for the process and without
    a response. *)
Theorem nonzero_exit_reports_stderr (w : World) (code : Z) :
  code <> 0 ->
  (forall (c : XfnSpark.Command) (registry defaultImage : string),
     let n := XfnSpark.MaxStdioBytes c in
     let out := call (XfnSpark.Run w c registry defaultImage) in
     (In (EvWait (Exited code)) (trace out) ->
      completion out
      = Returned (Some (Wrapped
          (exec_ExitError code (captured n (proc_stderr (process w))))
          XfnSpark.errRuntime)) /\
      written (trace out) = []) /\
     (forall req conf,
        XfnReach.started w c registry defaultImage req conf ->
        exits_with (XfnReach.context conf) (process w) code ->
        (reads_clean n (proc_stdout (process w)) (stdout_fault (process w)) ->
         reads_clean n (proc_stderr (process w)) (stderr_fault (process w)) ->
         In (EvWait (Exited code)) (trace out)) /\
        (forall e,
           reads_faulty n (proc_stdout (process w)) (stdout_fault (process w)) e ->
           completion out = Returned (Some (Wrapped e XfnSpark.errRuntime)) /\
           (forall f, ~ In (EvWait f) (trace out)) /\
           written (trace out) = []) /\
        (forall e,
           reads_clean n (proc_stdout (process w)) (stdout_fault (process w)) ->
           reads_faulty n (proc_stderr (process w)) (stderr_fault (process w)) e ->
           completion out = Returned (Some (Wrapped e XfnSpark.errRuntime)) /\
           (forall f, ~ In (EvWait f) (trace out)) /\
           written (trace out) = []))) /\
  (forall (c : Spark.Command) (args : Config.Args),
     let n := Spark.MaxStdioBytes c in
     let out := call (Spark.Run w c args) in
     (In (EvWait (Exited code)) (trace out) ->
      completion out
      = Returned (Some (Wrapped (exec_ExitError code [])
          (String.append "while waiting for command: "
             (string_of_list_byte (captured n (proc_stderr (process w))))))) /\
      written (trace out) = []) /\
     (forall req,
        SparkReach.started w c args req ->
        exits_with context_Background (process w) code ->
        (reads_clean n (proc_stdout (process w)) (stdout_fault (process w)) ->
         reads_clean n (proc_stderr (process w)) (stderr_fault (process w)) ->
         In (EvWait (Exited code)) (trace out)) /\
        (forall e,
           reads_faulty n (proc_stdout (process w)) (stdout_fault (process w)) e ->
           completion out = Returned (Some (Wrapped e "cannot read stdout")) /\
           (forall f, ~ In (EvWait f) (trace out)) /\
           written (trace out) = []) /\
        (forall e,
           reads_clean n (proc_stdout (process w)) (stdout_fault (process w)) ->
           reads_faulty n (proc_stderr (process w)) (stderr_fault (process w)) e ->
           completion out = Returned (Some (Wrapped e "cannot read stderr")) /\
           (forall f, ~ In (EvWait f) (trace out)) /\
           written (trace out) = []))).
Proof.
  intros Hne. split.
  - intros c registry defaultImage n out. subst n out. split.
    + run_cases.
      all: intros Hin; in_trace Hin.
      all: injection Hin as ->.
      all: try match goal with
               | H : (_ =? 0) = true |- _ => apply Z.eqb_eq in H; congruence
               end.
      all: read_captured.
      all: split; reflexivity.
    + intros req conf Hs He. split; [| split].
      * intros Ho Her.
        rewrite (xfn_run_nonzero_exit w c registry defaultImage req conf code
                   Hs He Ho Her Hne).
        cbn. tauto.
      * intros e Ho.
        rewrite (xfn_run_stdout_fault w c registry defaultImage req conf code e
                   Hs He Ho).
        cbn. split; [reflexivity |]. split; [| reflexivity].
        intros f H. in_trace H.
      * intros e Ho Her.
        rewrite (xfn_run_stderr_fault w c registry defaultImage req conf code e
                   Hs He Ho Her).
        cbn. split; [reflexivity |]. split; [| reflexivity].
        intros f H. in_trace H.
  - intros c args n out. subst n out. split.
    + run_cases.
      all: intros Hin; in_trace Hin.
      all: injection Hin as ->.
      all: try match goal with
               | H : (_ =? 0) = true |- _ => apply Z.eqb_eq in H; congruence
               end.
      all: read_captured.
      all: split; reflexivity.
    + intros req Hs He. split; [| split].
      * intros Ho Her.
        rewrite (spark_run_nonzero_exit w c args req code Hs He Ho Her Hne).
        cbn. tauto.
      * intros e Ho.
        rewrite (spark_run_stdout_fault w c args req code e Hs He Ho).
        cbn. split; [reflexivity |]. split; [| reflexivity].
        intros f H. in_trace H.
      * intros e Ho Her.
        rewrite (spark_run_stderr_fault w c args req code e Hs He Ho Her).
        cbn. split; [reflexivity |]. split; [| reflexivity].
        intros f H. in_trace H.
Qed.

Lemma nonzero_exit_reports_stderr_witness :
  completion (call (XfnSpark.Run
                      (sample_world None (Ok []) (sample_faulty_process 3 None) None)
                      (sample_xfn_command 4) "index.docker.io" ""))
  = Returned (Some (Wrapped (exec_ExitError 3 (list_byte_of_string "diag"))
                      XfnSpark.errRuntime)) /\
  completion (call (Spark.Run
                      (sample_world None (Ok [])
                         (sample_faulty_process 2
                            (Some (errors_New "read |0: file already closed")))
                         None)
                      (sample_spark_command 0) sample_args))
  = Returned (Some (Wrapped (errors_New "read |0: file already closed")
                      "cannot read stderr")).
Proof.
  split.
  - pose proof (proj1 (nonzero_exit_reports_stderr
                  (sample_world None (Ok []) (sample_faulty_process 3 None) None) 3
                  ltac:(discriminate))
                  (sample_xfn_command 4) "index.docker.io" "") as [Hw Hl].
    apply Hw.
    apply (proj1 (Hl sample_request (sample_config None)
                    (sample_world_xfn_started None (sample_faulty_process 3 None) None 4)
                    eq_refl)).
    + left. reflexivity.
    + left. reflexivity.
  - pose proof (proj2 (nonzero_exit_reports_stderr
                  (sample_world None (Ok [])
                     (sample_faulty_process 2
                        (Some (errors_New "read |0: file already closed"))) None) 2
                  ltac:(discriminate))
                  (sample_spark_command 0) sample_args) as [_ Hl].
    apply (proj2 (proj2 (Hl sample_request
                    (sample_world_spark_started None
                       (sample_faulty_process 2
                          (Some (errors_New "read |0: file already closed"))) None 0)
                    eq_refl))).
    + left. reflexivity.
    + split; [reflexivity | left; reflexivity].
Defined.

(** ** The bundling strategy *)

(** C7, as stated, fails: a run that cannot read its request from
    standard input returns before it probes the cache directory, and
    selects no bundler; in both generations. *)
Lemma run_without_request_never_probes :
  let fault := errors_New "read /dev/stdin: input/output error" in
  let w := set_stdin (sample_world None (Ok []) (sample_process (Exits 1000 0)) None)
             (mkReader [] (Fault fault)) in
  let xfn := call (XfnSpark.Run w (sample_xfn_command 0) "index.docker.io" "") in
  let oci := call (Spark.Run w (sample_spark_command 0) sample_args) in
  completion xfn = Returned (Some (Wrapped fault XfnSpark.errReadRequest)) /\
  (forall dir, ~ In (EvSupported dir) (trace xfn)) /\
  (forall k ok, ~ In (EvBundle k ok) (trace xfn)) /\
  completion oci = Returned (Some (Wrapped fault Spark.errReadRequest)) /\
  (forall dir, ~ In (EvSupported dir) (trace oci)) /\
  (forall k ok, ~ In (EvBundle k ok) (trace oci)).
Proof.
  cbn. repeat split; intros; intro H; exact H.
Qed.

(** C7, amended.  In both generations of the run: a run that reads and
    decodes its request probes the configured cache directory as its first
    effect, and probes once; a run that does not decode a request has no
    effect at all.  When, after the probe, the selected bundler is made and
    the image is obtained, the run asks for one bundle, from the overlay
    bundler if the probe found overlays supported and from the uncompressed
    bundler otherwise.  When the probe finds overlays supported and the
    overlay bundler cannot be made, the run returns that error and does not
    fall back to the uncompressed bundler.  No run creates more than one
    bundle, and no run creates a bundle with a bundler other than the one
    that the probe selects. *)
Theorem bundler_selected_by_probe (w : World) :
  (forall (c : XfnSpark.Command) (registry defaultImage : string),
     let out := call (XfnSpark.Run w c registry defaultImage) in
     let tr := trace out in
     ((tr = [] \/ exists rest, tr = EvSupported (XfnSpark.CacheDir c) :: rest /\
                               filter is_supported rest = []) /\
      (List.length (filter is_bundle tr) <= 1)%nat /\
      (forall k ok, In (EvBundle k ok) tr ->
         k = if overlay_Supported w (XfnSpark.CacheDir c) then Overlay else Uncompressed)) /\
     (forall req conf,
        XfnReach.decoded w req conf ->
        (exists rest, tr = EvSupported (XfnSpark.CacheDir c) :: rest /\
                      filter is_supported rest = []) /\
        (forall image,
           XfnReach.pulled w c registry defaultImage conf image ->
           In (EvBundle (probed_kind w (XfnSpark.CacheDir c))
                        match XfnReach.bundle_result w c conf image with
                        | Ok _ => true
                        | Err _ => false
                        end) tr) /\
        (forall e,
           overlay_Supported w (XfnSpark.CacheDir c) = true ->
           overlay_NewCachingBundler w (XfnSpark.CacheDir c) = Some e ->
           out = mkOutcome (Returned (Some (Wrapped e XfnSpark.errNewBundleStore)))
                           [EvSupported (XfnSpark.CacheDir c)])) /\
     ((forall req conf, ~ XfnReach.decoded w req conf) -> tr = [])) /\
  (forall (c : Spark.Command) (args : Config.Args),
     let out := call (Spark.Run w c args) in
     let tr := trace out in
     ((tr = [] \/ exists rest, tr = EvSupported (Spark.CacheDir c) :: rest /\
                               filter is_supported rest = []) /\
      (List.length (filter is_bundle tr) <= 1)%nat /\
      (forall k ok, In (EvBundle k ok) tr ->
         k = if overlay_Supported w (Spark.CacheDir c) then Overlay else Uncompressed)) /\
     (forall req,
        SparkReach.decoded w req ->
        (exists rest, tr = EvSupported (Spark.CacheDir c) :: rest /\
                      filter is_supported rest = []) /\
        (forall image,
           SparkReach.opened w c args image ->
           In (EvBundle (probed_kind w (Spark.CacheDir c))
                        match SparkReach.bundle_result w c image with
                        | Ok _ => true
                        | Err _ => false
                        end) tr) /\
        (forall e,
           overlay_Supported w (Spark.CacheDir c) = true ->
           overlay_NewCachingBundler w (Spark.CacheDir c) = Some e ->
           out = mkOutcome (Returned (Some (Wrapped e Spark.errNewBundleStore)))
                           [EvSupported (Spark.CacheDir c)])) /\
     ((forall req, ~ SparkReach.decoded w req) -> tr = [])).
Proof.
  split.
  - intros c registry defaultImage out tr. subst tr out.
    split; [| split].
    + run_cases.
      all: split; [first [left; reflexivity | right; eexists; split; reflexivity] |].
      all: split; [cbn; lia |].
      all: intros ? ? Hin; in_trace Hin.
      all: injection Hin as <- <-; reflexivity.
    + intros req conf Hd. split; [| split].
      * exact (xfn_run_probes w c registry defaultImage req conf Hd).
      * intros image Hp.
        exact (xfn_run_bundles w c registry defaultImage req conf image Hd Hp).
      * intros e Hs Hn.
        exact (xfn_run_new_bundler_fails w c registry defaultImage req conf e Hd Hs Hn).
    + apply xfn_run_undecoded.
  - intros c args out tr. subst tr out.
    split; [| split].
    + run_cases.
      all: split; [first [left; reflexivity | right; eexists; split; reflexivity] |].
      all: split; [cbn; lia |].
      all: intros ? ? Hin; in_trace Hin.
      all: injection Hin as <- <-; reflexivity.
    + intros req Hd. split; [| split].
      * exact (spark_run_probes w c args req Hd).
      * intros image Hp.
        exact (spark_run_bundles w c args req image Hd Hp).
      * intros e Hs Hn.
        exact (spark_run_new_bundler_fails w c args req e Hd Hs Hn).
    + apply spark_run_undecoded.
Qed.

Lemma bundler_selected_by_probe_witness :
  let w := sample_world None (Ok []) (sample_process (Exits 1000 0)) None in
  let w' := set_overlay_Supported w (fun _ => false) in
  In (EvBundle Overlay true)
     (trace (call (XfnSpark.Run w (sample_xfn_command 0) "index.docker.io" ""))) /\
  In (EvBundle Uncompressed true)
     (trace (call (Spark.Run w' (sample_spark_command 0) sample_args))).
Proof.
  intros w w'. split.
  - refine (proj1 (proj2 (proj1 (proj2 (proj1 (bundler_selected_by_probe w)
              (sample_xfn_command 0) "index.docker.io" ""))
              sample_request (sample_config None) _))
              "example.com/fn:v1" _).
    + do 3 eexists. repeat split; reflexivity.
    + split; [reflexivity |]. split; [reflexivity |].
      eexists. split; [reflexivity |]. split; reflexivity.
  - refine (proj1 (proj2 (proj1 (proj2 (proj2 (bundler_selected_by_probe w')
              (sample_spark_command 0) sample_args))
              sample_request _))
              "/function.tar" _).
    + eexists. split; reflexivity.
    + split; [discriminate | reflexivity].
Defined.
